(** * EmbeddingDatabaseService: the embedding cache of the character-sheet app

    A shallow embedding of [src/services/embeddingDatabase.js] and the
    properties of its specification.

    The service is a singleton object with three fields.  Its methods are
    [async]: each [await] is a point where the outside world (the MMKV
    key-value store, the file system, the Supabase table, the clock) is
    consulted.  The methods are modelled in a state-and-exception monad
    over the pair of the object and the world; a single thread of control
    is assumed, so an [await] is sequencing.

    Choices of the model:
    - the world may fail: every store call, file call and remote query can
      throw, as an oracle of the environment decides, so that the [try]
      blocks of the source have something to catch;
    - a stored string is the JSON text of a value of the shape its key is
      used at, which is what the service writes there, or the empty string,
      or a text that is not JSON; the JSON texts of other shapes are not
      represented, and the properties say nothing of a store that holds
      one;
    - numbers of the vectors are symbolic, and [JSON.parse] gives back what
      [JSON.stringify] was given (true of finite numbers);
    - [console] output is not modelled;
    - the remote side of [uploadToCloud] is given per call, by what each of
      its awaited calls settles to.

    The handlers of the weapon-skill list follow, as the values they
    dispatch. *)

From Stdlib Require Import String Ascii List ZArith Bool Arith Lia Sorted.
Import ListNotations.

Local Open Scope string_scope.
Local Open Scope list_scope.

(** ** Data model *)

(** A JavaScript number is kept symbolic: [Number tok] is the value that the
    built-in [Number] gives on the string [tok] (so [Number "0.1"] is the
    double written [0.1]).  No floating-point arithmetic is performed on the
    vectors by this service; they are only built, stored and handed out. *)
Inductive number : Type :=
| Number (token : string).

(** The local shape of an entry: [{ skill, embedding }]. *)
Record SkillEmbedding : Type := {
  skill : string;
  embedding : list number
}.

(** The remote shape of a row of table [skill_embeddings]. *)
Record row : Type := {
  skill_name : string;
  embedding_vector : list number
}.

(** *** The persisted key-value store

    The service uses four fixed keys, each holding the [JSON.stringify] of a
    value of one shape.  A key carries the shape it is used at. *)
Inductive key : Type -> Type :=
| LAST_SYNC_KEY : key Z
| OFFLINE_MODE_KEY : key bool
| EMBEDDINGS_CACHE_KEY : key (list SkillEmbedding)
| SKILL_NAMES_CACHE_KEY : key (list string).

Definition key_name {A : Type} (k : key A) : string :=
  match k with
  | LAST_SYNC_KEY => "@embeddings_last_sync"
  | OFFLINE_MODE_KEY => "@embeddings_offline_mode"
  | EMBEDDINGS_CACHE_KEY => "@embeddings_cache"
  | SKILL_NAMES_CACHE_KEY => "@skill_names_cache"
  end.

(** A stored string, as far as the service can tell strings apart: the JSON
    text of a value of the shape its key is used at, the empty string
    (falsy), or some other non-empty string that [JSON.parse] rejects.  The
    service itself writes texts of the first kind only, each under its key.
    A store in which other code has put the JSON text of a value of another
    shape is outside the model, and outside every property stated below. *)
Inductive text (A : Type) : Type :=
| Stringified (a : A)
| EmptyText
| Malformed.

Arguments Stringified {A} a.
Arguments EmptyText {A}.
Arguments Malformed {A}.

Definition JSON_stringify {A : Type} (a : A) : text A := Stringified a.

Record storage : Type := {
  last_sync : option (text Z);
  offline_mode : option (text bool);
  embeddings_cache : option (text (list SkillEmbedding));
  skill_names_cache : option (text (list string))
}.

Definition lookup {A : Type} (k : key A) (m : storage) : option (text A) :=
  match k in key T return option (text T) with
  | LAST_SYNC_KEY => last_sync m
  | OFFLINE_MODE_KEY => offline_mode m
  | EMBEDDINGS_CACHE_KEY => embeddings_cache m
  | SKILL_NAMES_CACHE_KEY => skill_names_cache m
  end.

Definition update {A : Type} (k : key A) (v : text A) (m : storage) : storage :=
  match k in key T return text T -> storage with
  | LAST_SYNC_KEY => fun v =>
      {| last_sync := Some v; offline_mode := offline_mode m;
         embeddings_cache := embeddings_cache m;
         skill_names_cache := skill_names_cache m |}
  | OFFLINE_MODE_KEY => fun v =>
      {| last_sync := last_sync m; offline_mode := Some v;
         embeddings_cache := embeddings_cache m;
         skill_names_cache := skill_names_cache m |}
  | EMBEDDINGS_CACHE_KEY => fun v =>
      {| last_sync := last_sync m; offline_mode := offline_mode m;
         embeddings_cache := Some v;
         skill_names_cache := skill_names_cache m |}
  | SKILL_NAMES_CACHE_KEY => fun v =>
      {| last_sync := last_sync m; offline_mode := offline_mode m;
         embeddings_cache := embeddings_cache m;
         skill_names_cache := Some v |}
  end v.

(** Truthiness of what [getString] returns: [undefined] and the empty string
    are falsy, every other string is truthy. *)
Definition truthy {A : Type} (s : option (text A)) : bool :=
  match s with
  | Some (Stringified _) => true
  | Some Malformed => true
  | Some EmptyText => false
  | None => false
  end.

(** *** The service object *)

Record EmbeddingDatabaseService : Type := {
  isOfflineMode : bool;
  initialized : bool;
  embeddings : list SkillEmbedding
}.

Definition constructor : EmbeddingDatabaseService :=
  {| isOfflineMode := false; initialized := false; embeddings := [] |}.

(** *** The world outside the object *)

(** What [supabase.from(..).select(..).order(..)] settles to: a
    [{ data, error }] pair, or a rejection. *)
Inductive response : Type :=
| Resolved (data : option (list row)) (error : option string)
| Rejected.

(** The part of the world the service cannot change.  The oracles are
    indexed by how many operations of their kind came before, so that any
    pattern of faults, replies and clock readings can be described. *)
Record environment : Type := {
  Platform_OS_web : bool;
  Date_now : nat -> Z;
  getString_throws : string -> nat -> bool;
  set_throws : string -> nat -> bool;
  file_throws : nat -> bool;
  select_reply : nat -> response
}.

Inductive event : Type :=
| MmkvGet (k : string)
| MmkvSet (k : string)
| FsGetInfo
| FsWrite
| FsRead
| RemoteSelect
| ClockRead.

(** The part of the world the service changes or consumes.  [csv_file] is
    the content of the file at [csvPath], when it exists; [trace] lists the
    operations performed, the newest first. *)
Record world : Type := {
  mmkv : storage;
  csv_file : option string;
  storage_ops : nat;
  file_ops : nat;
  remote_queries : nat;
  clock_reads : nat;
  trace : list event
}.

Record state : Type := {
  this : EmbeddingDatabaseService;
  outside : world
}.

Inductive error : Type :=
| StorageError
| SyntaxError
| FileError
| NetworkError.

Inductive outcome (A : Type) : Type :=
| Return (a : A)
| Throw (e : error).

Arguments Return {A} a.
Arguments Throw {A} e.

(** ** The monad of [async] methods *)

Definition M (A : Type) : Type := state -> outcome A * state.

Definition ret {A : Type} (a : A) : M A := fun st => (Return a, st).

Definition throw {A : Type} (e : error) : M A := fun st => (Throw e, st).

Definition bind {A B : Type} (m : M A) (f : A -> M B) : M B :=
  fun st =>
    match m st with
    | (Return a, st') => f a st'
    | (Throw e, st') => (Throw e, st')
    end.

(** [try { body } catch (error) { handler }]: what the body did to the state
    before it threw stays done. *)
Definition try_catch {A : Type} (body : M A) (handler : error -> M A) : M A :=
  fun st =>
    match body st with
    | (Return a, st') => (Return a, st')
    | (Throw e, st') => handler e st'
    end.

Declare Scope js_scope.
Delimit Scope js_scope with js.

Notation "x <- m ;; k" := (bind m (fun x => k))
  (at level 100, m at next level, right associativity) : js_scope.
Notation "m ;; k" := (bind m (fun _ => k))
  (at level 100, right associativity) : js_scope.

Local Open Scope js_scope.

(** Field reads and writes of [this]. *)
Definition get {A : Type} (field : EmbeddingDatabaseService -> A) : M A :=
  fun st => (Return (field (this st)), st).

Definition set_isOfflineMode (b : bool) : M unit :=
  fun st =>
    (Return tt,
     {| this := {| isOfflineMode := b;
                   initialized := initialized (this st);
                   embeddings := embeddings (this st) |};
        outside := outside st |}).

Definition set_initialized (b : bool) : M unit :=
  fun st =>
    (Return tt,
     {| this := {| isOfflineMode := isOfflineMode (this st);
                   initialized := b;
                   embeddings := embeddings (this st) |};
        outside := outside st |}).

Definition set_embeddings (l : list SkillEmbedding) : M unit :=
  fun st =>
    (Return tt,
     {| this := {| isOfflineMode := isOfflineMode (this st);
                   initialized := initialized (this st);
                   embeddings := l |};
        outside := outside st |}).

Definition JSON_parse {A : Type} (t : text A) : M A :=
  match t with
  | Stringified a => ret a
  | EmptyText => throw SyntaxError
  | Malformed => throw SyntaxError
  end.

(** [str ? JSON.parse(str) : dflt] *)
Definition parse_or {A : Type} (str : option (text A)) (dflt : A) : M A :=
  match str with
  | Some t => if truthy str then JSON_parse t else ret dflt
  | None => ret dflt
  end.

(** ** Strings: the built-ins used by the CSV reader

    A character stands for a UTF-16 code unit below 256. *)

Definition LF : ascii := ascii_of_nat 10.
Definition CR : ascii := ascii_of_nat 13.
Definition space : ascii := ascii_of_nat 32.
Definition comma : ascii := ascii_of_nat 44.
Definition dquote : ascii := ascii_of_nat 34.

(** [s.split(sep)] for a one-character separator: never an empty array. *)
Fixpoint split (sep : ascii) (s : string) : list string :=
  match s with
  | EmptyString => [EmptyString]
  | String c s' =>
      if Ascii.eqb c sep then EmptyString :: split sep s'
      else match split sep s' with
           | piece :: rest => String c piece :: rest
           | [] => [String c EmptyString]
           end
  end.

(** White space and line terminators, as [String.prototype.trim] sees them:
    TAB, LF, VT, FF, CR, SP and NBSP. *)
Definition isWhiteSpace (c : ascii) : bool :=
  existsb (Ascii.eqb c) (map ascii_of_nat [9; 10; 11; 12; 13; 32; 160]%nat).

Fixpoint trimStart (s : string) : string :=
  match s with
  | EmptyString => EmptyString
  | String c s' => if isWhiteSpace c then trimStart s' else s
  end.

Fixpoint trimEnd (s : string) : string :=
  match s with
  | EmptyString => EmptyString
  | String c s' =>
      match trimEnd s' with
      | EmptyString => if isWhiteSpace c then EmptyString else String c EmptyString
      | t => String c t
      end
  end.

Definition trim (s : string) : string := trimEnd (trimStart s).

Definition is_empty (s : string) : bool :=
  match s with
  | EmptyString => true
  | String _ _ => false
  end.

(** The characters that [.] of a regular expression does not match. *)
Definition isLineTerminator (c : ascii) : bool :=
  Ascii.eqb c LF || Ascii.eqb c CR.

(** What [(.+)] captures at the start of [s]: the longest run of characters
    that are not line terminators; empty when the group cannot match. *)
Fixpoint dot_plus (s : string) : string :=
  match s with
  | EmptyString => EmptyString
  | String c s' =>
      if isLineTerminator c then EmptyString else String c (dot_plus s')
  end.

(** [const [skill, embeddingStr] = row.split(/,(.+)/)].  The array starts
    with the text before the leftmost match and the text captured there; the
    second is [undefined] when the expression matches nowhere. *)
Fixpoint split_first_comma (s : string) : string * option string :=
  match s with
  | EmptyString => (EmptyString, None)
  | String c s' =>
      if Ascii.eqb c comma then
        match dot_plus s' with
        | EmptyString =>
            let (skill, embeddingStr) := split_first_comma s' in
            (String c skill, embeddingStr)
        | String _ _ as captured => (EmptyString, Some captured)
        end
      else
        let (skill, embeddingStr) := split_first_comma s' in
        (String c skill, embeddingStr)
  end.

(** [s.replace] with the global pattern of one double quote and the empty
    replacement: every double quote is removed. *)
Fixpoint remove_quotes (s : string) : string :=
  match s with
  | EmptyString => EmptyString
  | String c s' =>
      if Ascii.eqb c dquote then remove_quotes s' else String c (remove_quotes s')
  end.

(** The body of the loop of [loadFromCsv], over the rows it visits. *)
Fixpoint parse_rows (rows : list string) : list SkillEmbedding :=
  match rows with
  | [] => []
  | r :: rest =>
      if is_empty (trim r) then parse_rows rest
      else
        let (skill, embeddingStr) := split_first_comma r in
        match embeddingStr with
        | None => parse_rows rest
        | Some embeddingStr =>
            if is_empty skill || is_empty embeddingStr then parse_rows rest
            else
              {| skill := skill;
                 embedding := map Number (split space (remove_quotes embeddingStr)) |}
              :: parse_rows rest
        end
  end.

(** Lines 110-125: the rows of the content, without the first. *)
Definition parse_csv (content : string) : list SkillEmbedding :=
  parse_rows (tl (split LF content)).

(** The tokens of a string in the sense of the specification: the maximal
    runs of characters that are not white space. *)
Fixpoint whitespace_tokens_from (current : string) (s : string) : list string :=
  match s with
  | EmptyString => if is_empty current then [] else [current]
  | String c s' =>
      if isWhiteSpace c then
        if is_empty current then whitespace_tokens_from EmptyString s'
        else current :: whitespace_tokens_from EmptyString s'
      else whitespace_tokens_from (current ++ String c EmptyString) s'
  end.

Definition whitespace_tokens (s : string) : list string :=
  whitespace_tokens_from EmptyString s.

Definition quoted (s : string) : string :=
  String dquote (s ++ String dquote EmptyString).

Definition line (s : string) : string := s ++ String LF EmptyString.

(** ** The methods of the service *)

Section Service.

Variable env : environment.

(** *** Operations on the world *)

Definition with_world (st : state) (w : world) : state :=
  {| this := this st; outside := w |}.

(** Modelled from the spec: [mmkvStorage], exported by [./supabase], which
    is not among the sources.  [await mmkvStorage.getString(k)] gives the
    string stored under the key, or nothing when the key is absent; the call
    may fail. *)
Definition mmkvStorage_getString {A : Type} (k : key A) : M (option (text A)) :=
  fun st =>
    let w := outside st in
    let w' := {| mmkv := mmkv w; csv_file := csv_file w;
                 storage_ops := S (storage_ops w); file_ops := file_ops w;
                 remote_queries := remote_queries w;
                 clock_reads := clock_reads w;
                 trace := MmkvGet (key_name k) :: trace w |} in
    if getString_throws env (key_name k) (storage_ops w)
    then (Throw StorageError, with_world st w')
    else (Return (lookup k (mmkv w)), with_world st w').

(** Modelled from the spec: [await mmkvStorage.set(k, v)] of the same
    missing module stores the string under the key; the call may fail, and
    then stores nothing. *)
Definition mmkvStorage_set {A : Type} (k : key A) (v : text A) : M unit :=
  fun st =>
    let w := outside st in
    if set_throws env (key_name k) (storage_ops w)
    then (Throw StorageError,
          with_world st
            {| mmkv := mmkv w; csv_file := csv_file w;
               storage_ops := S (storage_ops w); file_ops := file_ops w;
               remote_queries := remote_queries w;
               clock_reads := clock_reads w;
               trace := MmkvSet (key_name k) :: trace w |})
    else (Return tt,
          with_world st
            {| mmkv := update k v (mmkv w); csv_file := csv_file w;
               storage_ops := S (storage_ops w); file_ops := file_ops w;
               remote_queries := remote_queries w;
               clock_reads := clock_reads w;
               trace := MmkvSet (key_name k) :: trace w |}).

(** A file-system call: counted, traced, and possibly failing. *)
Definition file_op {A : Type} (e : event) (run : world -> outcome A * option string) : M A :=
  fun st =>
    let w := outside st in
    let after (f : option string) :=
      with_world st
        {| mmkv := mmkv w; csv_file := f;
           storage_ops := storage_ops w; file_ops := S (file_ops w);
           remote_queries := remote_queries w;
           clock_reads := clock_reads w;
           trace := e :: trace w |} in
    if file_throws env (file_ops w)
    then (Throw FileError, after (csv_file w))
    else let (r, f) := run w in (r, after f).

(** [await FileSystem.getInfoAsync(csvPath)], of which [exists] is used. *)
Definition FileSystem_getInfoAsync : M bool :=
  file_op FsGetInfo
    (fun w => (Return (match csv_file w with Some _ => true | None => false end),
               csv_file w)).

(** [await FileSystem.writeAsStringAsync(csvPath, contents)] *)
Definition FileSystem_writeAsStringAsync (contents : string) : M unit :=
  file_op FsWrite (fun w => (Return tt, Some contents)).

(** [await FileSystem.readAsStringAsync(csvPath)]: rejects when there is no
    file. *)
Definition FileSystem_readAsStringAsync : M string :=
  file_op FsRead
    (fun w => match csv_file w with
              | Some content => (Return content, csv_file w)
              | None => (Throw FileError, csv_file w)
              end).

(** Modelled from the spec: the [supabase] client of the same missing
    module.  The awaited query on table skill_embeddings, selecting
    skill_name and embedding_vector in ascending order of skill_name, is
    destructured into [{ data, error }]; the order of the rows is the
    remote side's. *)
Definition supabase_select : M (option (list row) * option string) :=
  fun st =>
    let w := outside st in
    let st' :=
      with_world st
        {| mmkv := mmkv w; csv_file := csv_file w;
           storage_ops := storage_ops w; file_ops := file_ops w;
           remote_queries := S (remote_queries w);
           clock_reads := clock_reads w;
           trace := RemoteSelect :: trace w |} in
    match select_reply env (remote_queries w) with
    | Resolved data error => (Return (data, error), st')
    | Rejected => (Throw NetworkError, st')
    end.

(** [Date.now()] *)
Definition Date_now_ : M Z :=
  fun st =>
    let w := outside st in
    (Return (Date_now env (clock_reads w)),
     with_world st
       {| mmkv := mmkv w; csv_file := csv_file w;
          storage_ops := storage_ops w; file_ops := file_ops w;
          remote_queries := remote_queries w;
          clock_reads := S (clock_reads w);
          trace := ClockRead :: trace w |}).

(** *** Methods *)

Definition setOfflineMode (isOffline : bool) : M unit :=
  set_isOfflineMode isOffline;;
  mmkvStorage_set OFFLINE_MODE_KEY (JSON_stringify isOffline).

Definition getOfflineMode (s : EmbeddingDatabaseService) : bool :=
  isOfflineMode s.

Definition getLastSyncTime : M (option Z) :=
  lastSyncStr <- mmkvStorage_getString LAST_SYNC_KEY;;
  match lastSyncStr with
  | Some t => if truthy lastSyncStr
              then (v <- JSON_parse t;; ret (Some v))
              else ret None
  | None => ret None
  end.

Definition loadFromCsv : M (list SkillEmbedding) :=
  try_catch
    ((if negb (Platform_OS_web env) then
        fileInfo_exists <- FileSystem_getInfoAsync;;
        if negb fileInfo_exists then
          try_catch
            (let header := line "Skill,Embedding" in
             FileSystem_writeAsStringAsync header)
            (fun _ => ret tt)
        else ret tt
      else ret tt);;
     content <- FileSystem_readAsStringAsync;;
     let parsed := parse_csv content in
     set_embeddings parsed;;
     mmkvStorage_set EMBEDDINGS_CACHE_KEY (JSON_stringify parsed);;
     ret parsed)
    (fun _ => ret []).

Definition loadCachedEmbeddings : M (list SkillEmbedding) :=
  try_catch
    (cachedData <- mmkvStorage_getString EMBEDDINGS_CACHE_KEY;;
     match cachedData with
     | Some t =>
         if truthy cachedData then
           parsed <- JSON_parse t;;
           set_embeddings parsed;;
           get embeddings
         else
           loadFromCsv;;
           get embeddings
     | None =>
         loadFromCsv;;
         get embeddings
     end)
    (fun _ => ret []).

Definition initialize : M unit :=
  already <- get initialized;;
  if already then ret tt
  else
    offlineModeStr <- mmkvStorage_getString OFFLINE_MODE_KEY;;
    isOffline <- parse_or offlineModeStr false;;
    set_isOfflineMode isOffline;;
    loadCachedEmbeddings;;
    set_initialized true.

Definition row_to_entry (item : row) : SkillEmbedding :=
  {| skill := skill_name item; embedding := embedding_vector item |}.

(** [this.embeddings || []]: an array, even an empty one, is truthy. *)
Definition embeddings_or_empty : M (list SkillEmbedding) := get embeddings.

Definition syncFromCloud : M (list SkillEmbedding) :=
  try_catch
    (reply <- supabase_select;;
     let (data, error) := reply in
     match error with
     | Some _ => embeddings_or_empty
     | None =>
         match data with
         | Some data =>
             if (0 <? length data)%nat then
               set_embeddings (map row_to_entry data);;
               let skillNamesOnly := map skill_name data in
               now <- Date_now_;;
               mmkvStorage_set LAST_SYNC_KEY (JSON_stringify now);;
               mmkvStorage_set SKILL_NAMES_CACHE_KEY (JSON_stringify skillNamesOnly);;
               get embeddings
             else embeddings_or_empty
         | None => embeddings_or_empty
         end
     end)
    (fun _ => embeddings_or_empty).

Definition ONE_HOUR : Z := 60 * 60 * 1000.

Definition getEmbeddings : M (list SkillEmbedding) :=
  initialize;;
  current <- get embeddings;;
  (if (length current =? 0)%nat then loadCachedEmbeddings;; ret tt else ret tt);;
  offline <- get isOfflineMode;;
  if negb offline then
    lastSyncStr <- mmkvStorage_getString LAST_SYNC_KEY;;
    lastSync <- parse_or lastSyncStr 0%Z;;
    now <- Date_now_;;
    if (now - lastSync >? ONE_HOUR)%Z then syncFromCloud
    else get embeddings
  else get embeddings.

Definition getEmbeddingBySkill (skillName : string) : M (option SkillEmbedding) :=
  embeddings <- getEmbeddings;;
  ret (find (fun item => String.eqb (skill item) skillName) embeddings).

End Service.

(** ** The upload to the cloud *)

(** An error object of the remote client, as far as [uploadToCloud] looks
    into it: its [code] and its [message], either of which may be missing. *)
Record remote_error : Type := {
  code : option string;
  message : option string
}.

(** What an awaited call of the remote client settles to. *)
Inductive settled (A : Type) : Type :=
| Fulfilled (a : A)
| Refused.

Arguments Fulfilled {A} a.
Arguments Refused {A}.

(** The remote side during one call of [uploadToCloud], which makes each of
    these calls at most once: whether [getSession] finds a session, the
    [error] of [signInAnonymously], of the delete and of the upsert; the
    last may depend on the rows sent. *)
Record cloud : Type := {
  getSession_reply : settled bool;
  signInAnonymously_reply : settled (option remote_error);
  delete_reply : settled (option remote_error);
  upsert_reply : list row -> settled (option remote_error)
}.

(** [hay.includes(needle)] *)
Fixpoint includes (needle hay : string) : bool :=
  if String.prefix needle hay then true
  else match hay with
       | EmptyString => false
       | String _ hay' => includes needle hay'
       end.

(** [deleteError.code === "42501" ||
     deleteError.message?.includes("permission denied")] *)
Definition permission_error (deleteError : remote_error) : bool :=
  match code deleteError with
  | Some c => String.eqb c "42501"
  | None => false
  end
  || match message deleteError with
     | Some m => includes "permission denied" m
     | None => false
     end.

Definition entry_to_row (item : SkillEmbedding) : row :=
  {| skill_name := skill item; embedding_vector := embedding item |}.

Section Upload.

Variable env : environment.
Variable remote : cloud.

(** Modelled from the spec: the [supabase] client of the missing module
    [./supabase]; an awaited call returns what the remote side settles to,
    or throws. *)
Definition await {A : Type} (r : settled A) : M A :=
  fun st =>
    match r with
    | Fulfilled a => (Return a, st)
    | Refused => (Throw NetworkError, st)
    end.

(** Lines 223-235: the upsert, and the timestamp on success. *)
Definition upsert_and_stamp (dataToUpload : list row) : M bool :=
  insertError <- await (upsert_reply remote dataToUpload);;
  match insertError with
  | Some _ => ret false
  | None =>
      now <- Date_now_ env;;
      mmkvStorage_set env LAST_SYNC_KEY (JSON_stringify now);;
      ret true
  end.

(** Lines 210-221: the delete, whose permission errors are passed over. *)
Definition clear_and_upsert (dataToUpload : list row) : M bool :=
  deleteError <- await (delete_reply remote);;
  match deleteError with
  | Some e =>
      if permission_error e then upsert_and_stamp dataToUpload
      else ret false
  | None => upsert_and_stamp dataToUpload
  end.

Definition uploadToCloud : M bool :=
  try_catch
    (offline <- get isOfflineMode;;
     if offline then ret false
     else
       current <- get embeddings;;
       (if (length current =? 0)%nat
        then loadCachedEmbeddings env;; ret tt else ret tt);;
       current <- get embeddings;;
       let dataToUpload := map entry_to_row current in
       session <- await (getSession_reply remote);;
       if negb session then
         signInError <- await (signInAnonymously_reply remote);;
         match signInError with
         | Some _ => ret false
         | None => clear_and_upsert dataToUpload
         end
       else clear_and_upsert dataToUpload)
    (fun _ => ret false).

End Upload.

(** * WeaponSkillManager: the handlers of the weapon-skill list

    The handlers of the component compute, from the skills and the build
    points that the component was rendered with, what they dispatch to the
    store: the new list of skills and the new build points, or nothing.
    The numbers of the component are doubles.  Ids, levels, build points
    and costs are taken here as integers; sums and differences of doubles
    are those of the integers as long as the operands and the result are
    safe integers, of magnitude below 2^53, and the properties that rest on
    exact arithmetic assume as much of the values involved.  The two cost
    functions come from the module of constants, which is not among the
    sources; nothing else is assumed of them. *)

Module WeaponSkills.

Inductive Heft : Type := Unarmed | TwoHanded | OneHanded | Versatile.

Inductive Kind : Type := Stab | Swing | Fire | Draw.

Record WeaponSkill : Type := {
  id : Z;
  level : Z;
  weaponHeft : Heft;
  weaponType : Kind
}.

(** The part of [base] that the handlers read and rewrite. *)
Record BuildPoints : Type := {
  buildPointsRemaining : Z;
  buildPointsSpent : Z
}.

(** What one handler run dispatches: [updateWeaponSkills(updatedSkills)] and
    [updateMultipleFields] of the two build-point fields. *)
Record Dispatched : Type := {
  updatedSkills : list WeaponSkill;
  newPoints : BuildPoints
}.

Definition weaponOptions : list WeaponSkill :=
  [ {| id := 1; level := 1; weaponHeft := TwoHanded; weaponType := Stab |};
    {| id := 2; level := 1; weaponHeft := TwoHanded; weaponType := Swing |};
    {| id := 3; level := 1; weaponHeft := TwoHanded; weaponType := Draw |};
    {| id := 4; level := 1; weaponHeft := TwoHanded; weaponType := Fire |};
    {| id := 5; level := 1; weaponHeft := OneHanded; weaponType := Fire |};
    {| id := 6; level := 1; weaponHeft := OneHanded; weaponType := Swing |};
    {| id := 7; level := 1; weaponHeft := OneHanded; weaponType := Stab |};
    {| id := 8; level := 1; weaponHeft := OneHanded; weaponType := Draw |};
    {| id := 9; level := 1; weaponHeft := Unarmed; weaponType := Swing |};
    {| id := 13; level := 1; weaponHeft := Versatile; weaponType := Stab |};
    {| id := 14; level := 1; weaponHeft := Versatile; weaponType := Swing |} ]%Z.

(** [arr.findIndex(p)], with [None] for -1. *)
Fixpoint findIndex {A : Type} (p : A -> bool) (l : list A) : option nat :=
  match l with
  | [] => None
  | x :: l' => if p x then Some 0%nat
               else match findIndex p l' with
                    | Some i => Some (S i)
                    | None => None
                    end
  end.

(** [arr[index] = v] on a copy, for an index within the array. *)
Fixpoint assign {A : Type} (index : nat) (v : A) (l : list A) : list A :=
  match l, index with
  | [], _ => []
  | _ :: l', O => v :: l'
  | x :: l', S i => x :: assign i v l'
  end.

Section Handlers.

Variable calculateSkillCost : Z -> Z.
Variable calculateTotalSkillCost : Z -> Z.

Variable skills : list WeaponSkill.
Variable base : BuildPoints.

(** Lines 98-100. *)
Definition totalSkillPoints : Z :=
  fold_left (fun total skill => (total + calculateTotalSkillCost (level skill))%Z)
    skills 0%Z.

(** Lines 103-124. *)
Definition selectWeaponSkill (newSkill : WeaponSkill) : Dispatched :=
  let updatedSkills := skills ++ [newSkill] in
  let costLevel1 := calculateSkillCost 1 in
  {| updatedSkills := updatedSkills;
     newPoints :=
       {| buildPointsRemaining := (buildPointsRemaining base - costLevel1)%Z;
          buildPointsSpent := (buildPointsSpent base + costLevel1)%Z |} |}.

(** Lines 126-163; [None] when the handler returns without dispatching. *)
Definition handleLevelChange (skill : WeaponSkill) (increase : bool)
  : option Dispatched :=
  match findIndex (fun s => (id s =? id skill)%Z) skills with
  | None => None
  | Some index =>
      let currentLevel := level skill in
      let newLevel := if increase then (currentLevel + 1)%Z
                      else (currentLevel - 1)%Z in
      if ((newLevel <? 1) || (newLevel >? 10))%Z then None
      else
        let costDifference :=
          if increase then calculateSkillCost newLevel
          else (- calculateSkillCost currentLevel)%Z in
        if increase && (buildPointsRemaining base <? costDifference)%Z then None
        else
          Some
            {| updatedSkills :=
                 assign index
                   {| id := id skill; level := newLevel;
                      weaponHeft := weaponHeft skill;
                      weaponType := weaponType skill |}
                   skills;
               newPoints :=
                 {| buildPointsRemaining :=
                      (buildPointsRemaining base - costDifference)%Z;
                    buildPointsSpent :=
                      (buildPointsSpent base + costDifference)%Z |} |}
  end.

(** Lines 171-189: what pressing Delete in the alert dispatches. *)
Definition handleDeleteSkill (skill : WeaponSkill) : Dispatched :=
  let updatedSkills := filter (fun s => negb (id s =? id skill)%Z) skills in
  let refund := calculateTotalSkillCost (level skill) in
  {| updatedSkills := updatedSkills;
     newPoints :=
       {| buildPointsRemaining := (buildPointsRemaining base + refund)%Z;
          buildPointsSpent := (buildPointsSpent base - refund)%Z |} |}.

End Handlers.

(** The build points in play: what remains and what is spent. *)
Definition budget (b : BuildPoints) : Z :=
  (buildPointsRemaining b + buildPointsSpent b)%Z.


(** [Number.isSafeInteger], on an integer: the range in which the doubles
    are the integers and their sums and differences, when they stay within
    it, are exact. *)
Definition isSafeInteger (z : Z) : bool :=
  (Z.abs z <=? 2 ^ 53 - 1)%Z.

Definition safe_points (b : BuildPoints) : bool :=
  isSafeInteger (buildPointsRemaining b) && isSafeInteger (buildPointsSpent b).

(** A listed option and a budget, for the examples. *)
Definition sword : WeaponSkill :=
  {| id := 6; level := 1; weaponHeft := OneHanded; weaponType := Swing |}%Z.

Definition twenty_points : BuildPoints :=
  {| buildPointsRemaining := 20; buildPointsSpent := 0 |}%Z.

End WeaponSkills.

(** * The vocabulary of the properties *)

(** The events a call added to the trace. *)
Definition added (st st' : state) (new : list event) : Prop :=
  trace (outside st') = new ++ trace (outside st).

(** What a purely local step leaves alone: the mode flags of the object,
    the remote and clock counters, and the three keys other than the cache. *)
Record local_only (st st' : state) : Prop := {
  lo_offline : isOfflineMode (this st') = isOfflineMode (this st);
  lo_initialized : initialized (this st') = initialized (this st);
  lo_remote : remote_queries (outside st') = remote_queries (outside st);
  lo_clock : clock_reads (outside st') = clock_reads (outside st);
  lo_flag : offline_mode (mmkv (outside st')) = offline_mode (mmkv (outside st));
  lo_sync : last_sync (mmkv (outside st')) = last_sync (mmkv (outside st));
  lo_names : skill_names_cache (mmkv (outside st')) = skill_names_cache (mmkv (outside st))
}.

(** A trace grown by pushing events, one at a time or in blocks. *)
Inductive pushed (tr : list event) : list event -> list event -> Prop :=
| pushed_none : pushed tr tr []
| pushed_one e tr' new : pushed tr tr' new -> pushed tr (e :: tr') (e :: new)
| pushed_block pre tr' new : pushed tr tr' new -> pushed tr (pre ++ tr') (pre ++ new).

(** The state in which the service stays offline: the flag is set in
    memory, and initialization, if it is still to come, will read it back. *)
Definition offline_latched (st : state) : Prop :=
  isOfflineMode (this st) = true /\
  (initialized (this st) = true \/
   offline_mode (mmkv (outside st)) = Some (Stringified true)).

(** [n] successive calls of [getEmbeddings], whatever they return. *)
Fixpoint getEmbeddings_times (env : environment) (n : nat) (st : state) : state :=
  match n with
  | O => st
  | S n' => getEmbeddings_times env n' (snd (getEmbeddings env st))
  end.

(** What [str ? JSON.parse(str) : dflt] evaluates to on a stored string;
    [None] when [JSON.parse] throws. *)
Definition decoded {A : Type} (str : option (text A)) (dflt : A) : option A :=
  match str with
  | Some (Stringified a) => Some a
  | Some Malformed => None
  | Some EmptyText => Some dflt
  | None => Some dflt
  end.

Definition persisted_flag (m : storage) : option bool :=
  decoded (offline_mode m) false.

Definition persisted_last_sync (m : storage) : option Z :=
  decoded (last_sync m) 0%Z.

(** The mode in which a call of [getEmbeddings] reaches its staleness
    check: the flag in memory when the service is initialized, and otherwise
    the flag that its initialization reads from the store, [false] when the
    key is absent or empty. *)
Definition comes_up (env : environment) (st : state) (offline : bool) : Prop :=
  (initialized (this st) = true /\ isOfflineMode (this st) = offline) \/
  (initialized (this st) = false /\
   getString_throws env "@embeddings_offline_mode" (storage_ops (outside st)) = false /\
   persisted_flag (mmkv (outside st)) = Some offline).

(** Lines 246-250: initialization and the load of an empty set. *)
Definition ensure_loaded (env : environment) : M unit :=
  initialize env;;
  current <- get embeddings;;
  if (length current =? 0)%nat then loadCachedEmbeddings env;; ret tt else ret tt.

(** Lines 252-263: the staleness check and the pull. *)
Definition refresh (env : environment) : M (list SkillEmbedding) :=
  offline <- get isOfflineMode;;
  if negb offline then
    lastSyncStr <- mmkvStorage_getString env LAST_SYNC_KEY;;
    lastSync <- parse_or lastSyncStr 0%Z;;
    now <- Date_now_ env;;
    if (now - lastSync >? ONE_HOUR)%Z then syncFromCloud env
    else get embeddings
  else get embeddings.

(** The state in which the staleness check leaves an online service: one
    store read and one clock reading later. *)
Definition checked (st : state) : state :=
  {| this := this st;
     outside :=
       {| mmkv := mmkv (outside st); csv_file := csv_file (outside st);
          storage_ops := S (storage_ops (outside st));
          file_ops := file_ops (outside st);
          remote_queries := remote_queries (outside st);
          clock_reads := S (clock_reads (outside st));
          trace := ClockRead :: MmkvGet "@embeddings_last_sync"
                     :: trace (outside st) |} |}.

Fixpoint occurrences (c : ascii) (s : string) : nat :=
  match s with
  | EmptyString => 0
  | String c' s' => (if Ascii.eqb c' c then 1 else 0) + occurrences c s'
  end.

Fixpoint all_chars (p : ascii -> bool) (s : string) : bool :=
  match s with
  | EmptyString => true
  | String c s' => p c && all_chars p s'
  end.

Definition blank (s : string) : bool := all_chars isWhiteSpace s.

Definition no_comma (s : string) : bool :=
  all_chars (fun c => negb (Ascii.eqb c comma)) s.

Definition one_line (s : string) : bool :=
  all_chars (fun c => negb (isLineTerminator c)) s.

(** A text that does not begin with a line terminator. *)
Definition no_break_first (s : string) : bool :=
  match s with
  | EmptyString => true
  | String c _ => negb (isLineTerminator c)
  end.

(** ** Concrete worlds, for the examples *)

Definition no_storage : storage :=
  {| last_sync := None; offline_mode := None;
     embeddings_cache := None; skill_names_cache := None |}.

Definition new_world (m : storage) (f : option string) : world :=
  {| mmkv := m; csv_file := f; storage_ops := 0; file_ops := 0;
     remote_queries := 0; clock_reads := 0; trace := [] |}.

Definition Sneak : SkillEmbedding :=
  {| skill := "Sneak"; embedding := [Number "0.1"; Number "0.2"; Number "0.3"] |}.

Definition Fireball_row : row :=
  {| skill_name := "Fireball"; embedding_vector := [Number "0.1"; Number "0.2"] |}.

(** A native device on which nothing fails, whose clock stands at a time
    long after the epoch and whose remote table holds one row. *)
Definition calm : environment :=
  {| Platform_OS_web := false;
     Date_now := fun _ => 1700000000000%Z;
     getString_throws := fun _ _ => false;
     set_throws := fun _ _ => false;
     file_throws := fun _ => false;
     select_reply := fun _ => Resolved (Some [Fireball_row]) None |}.

(** The same device with the network down. *)
Definition unreachable : environment :=
  {| Platform_OS_web := false;
     Date_now := fun _ => 1700000000000%Z;
     getString_throws := fun _ _ => false;
     set_throws := fun _ _ => false;
     file_throws := fun _ => false;
     select_reply := fun _ => Resolved None (Some "Network request failed") |}.

(** The same device with a store that rejects every call. *)
Definition broken_store : environment :=
  {| Platform_OS_web := false;
     Date_now := fun _ => 1700000000000%Z;
     getString_throws := fun _ _ => true;
     set_throws := fun _ _ => true;
     file_throws := fun _ => false;
     select_reply := fun _ => Resolved (Some [Fireball_row]) None |}.

Definition fresh : state :=
  {| this := constructor; outside := new_world no_storage None |}.

Definition loaded (m : storage) : state :=
  {| this := {| isOfflineMode := false; initialized := true;
                embeddings := [Sneak] |};
     outside := new_world m None |}.

(** A device whose remote table is empty. *)
Definition empty_table : environment :=
  {| Platform_OS_web := false;
     Date_now := fun _ => 1700000000000%Z;
     getString_throws := fun _ _ => false;
     set_throws := fun _ _ => false;
     file_throws := fun _ => false;
     select_reply := fun _ => Resolved (Some []) None |}.

Definition cached_Sneak : storage :=
  {| last_sync := None; offline_mode := None;
     embeddings_cache := Some (Stringified [Sneak]);
     skill_names_cache := None |}.

(** A device on which every file operation, every store write and every read
    of the cache key fails, and whose remote query is rejected. *)
Definition hostile : environment :=
  {| Platform_OS_web := false;
     Date_now := fun _ => 1700000000000%Z;
     getString_throws := fun k _ => String.eqb k "@embeddings_cache";
     set_throws := fun _ _ => true;
     file_throws := fun _ => true;
     select_reply := fun _ => Rejected |}.

Definition corrupted_flag : storage :=
  {| last_sync := None; offline_mode := Some Malformed;
     embeddings_cache := None; skill_names_cache := None |}.

Definition flag_persisted : storage :=
  {| last_sync := None; offline_mode := Some (Stringified true);
     embeddings_cache := None; skill_names_cache := None |}.

(** ** Further vocabulary and worlds *)

(** The shape of a set that every encoding of numbers keeps: the skills and
    the lengths of the vectors. *)
Definition outline (l : list SkillEmbedding) : list (string * nat) :=
  map (fun e => (skill e, length (embedding e))) l.

(** A bundled file with its header and one row. *)
Definition bundled : string :=
  line "Skill,Embedding" ++ line ("Sneak," ++ quoted "0.1 0.2 0.3").

Definition fresh_with_csv : state :=
  {| this := constructor; outside := new_world no_storage (Some bundled) |}.

(** A device whose store rejects the writes, and nothing else. *)
Definition read_only_store : environment :=
  {| Platform_OS_web := false;
     Date_now := fun _ => 1700000000000%Z;
     getString_throws := fun _ _ => false;
     set_throws := fun _ _ => true;
     file_throws := fun _ => false;
     select_reply := fun _ => Resolved (Some [Fireball_row]) None |}.

(** A device whose file system rejects every call. *)
Definition no_files : environment :=
  {| Platform_OS_web := false;
     Date_now := fun _ => 1700000000000%Z;
     getString_throws := fun _ _ => false;
     set_throws := fun _ _ => false;
     file_throws := fun _ => true;
     select_reply := fun _ => Resolved (Some [Fireball_row]) None |}.

Definition corrupted_cache : storage :=
  {| last_sync := None; offline_mode := None;
     embeddings_cache := Some Malformed; skill_names_cache := None |}.

Definition offline_loaded : state :=
  {| this := {| isOfflineMode := true; initialized := true;
                embeddings := [Sneak] |};
     outside := new_world no_storage None |}.

(** The remote side of an upload on which every call succeeds and a
    session exists. *)
Definition obliging : cloud :=
  {| getSession_reply := Fulfilled true;
     signInAnonymously_reply := Fulfilled None;
     delete_reply := Fulfilled None;
     upsert_reply := fun _ => Fulfilled None |}.

(** The same remote side with another outcome of the delete. *)
Definition with_delete (remote : cloud) (r : settled (option remote_error)) : cloud :=
  {| getSession_reply := getSession_reply remote;
     signInAnonymously_reply := signInAnonymously_reply remote;
     delete_reply := r;
     upsert_reply := upsert_reply remote |}.

Definition row_level_security : remote_error :=
  {| code := Some "42501";
     message := Some "new row violates row-level security policy" |}.

Definition table_missing : remote_error :=
  {| code := Some "42P01"; message := Some "relation does not exist" |}.

(** The content with every line feed preceded by a carriage return. *)
Fixpoint crlf (s : string) : string :=
  match s with
  | EmptyString => EmptyString
  | String c s' =>
      if Ascii.eqb c LF then String CR (String LF (crlf s'))
      else String c (crlf s')
  end.

(** Rows with a carriage return at the end of each but the last. *)
Fixpoint terminated (rows : list string) : list string :=
  match rows with
  | [] => []
  | [r] => [r]
  | r :: rest => (r ++ String CR EmptyString)%string :: terminated rest
  end.

(** A device whose remote table holds the row of [Sneak]. *)
Definition echoing : environment :=
  {| Platform_OS_web := false;
     Date_now := fun _ => 1700000000000%Z;
     getString_throws := fun _ _ => false;
     set_throws := fun _ _ => false;
     file_throws := fun _ => false;
     select_reply := fun _ => Resolved (Some (map entry_to_row [Sneak])) None |}.

(** A reply that brings no row: a rejection, an error, or no data. *)
Definition barren (r : response) : Prop :=
  match r with
  | Rejected => True
  | Resolved _ (Some _) => True
  | Resolved None None => True
  | Resolved (Some []) None => True
  | Resolved (Some (_ :: _)) None => False
  end.

(** The methods that a client may call on the service without running
    [initialize]: all of them but [getEmbeddings] and [getEmbeddingBySkill]. *)
Inductive call : Type :=
| SetOfflineMode (isOffline : bool)
| GetOfflineMode
| GetLastSyncTime
| LoadCachedEmbeddings
| LoadFromCsv
| SyncFromCloud
| UploadToCloud (remote : cloud).

(** The state after a call, whether the call returned or threw. *)
Definition after_call (env : environment) (c : call) (st : state) : state :=
  match c with
  | SetOfflineMode isOffline => snd (setOfflineMode env isOffline st)
  | GetOfflineMode => st
  | GetLastSyncTime => snd (getLastSyncTime env st)
  | LoadCachedEmbeddings => snd (loadCachedEmbeddings env st)
  | LoadFromCsv => snd (loadFromCsv env st)
  | SyncFromCloud => snd (syncFromCloud env st)
  | UploadToCloud remote => snd (uploadToCloud env remote st)
  end.

Fixpoint after_calls (env : environment) (calls : list call) (st : state) : state :=
  match calls with
  | [] => st
  | c :: rest => after_calls env rest (after_call env c st)
  end.

(** The flag passed to the last [setOfflineMode] among the calls, and
    [current] when there is none. *)
Fixpoint last_flag (current : bool) (calls : list call) : bool :=
  match calls with
  | [] => current
  | SetOfflineMode isOffline :: rest => last_flag isOffline rest
  | _ :: rest => last_flag current rest
  end.

(** Tokens joined by single spaces. *)
Fixpoint join_spaces (toks : list string) : string :=
  match toks with
  | [] => EmptyString
  | [t] => t
  | t :: rest => (t ++ String space (join_spaces rest))%string
  end.

(** A token: not empty, and free of white space. *)
Definition is_token (t : string) : bool :=
  negb (is_empty t) && all_chars (fun c => negb (isWhiteSpace c)) t.

(** * Properties *)

Arguments parse_csv : simpl never.
Arguments LF : simpl never.
Arguments CR : simpl never.
Arguments space : simpl never.
Arguments comma : simpl never.
Arguments dquote : simpl never.
Arguments isWhiteSpace : simpl never.
Arguments isLineTerminator : simpl never.

Ltac unfold_ops :=
  unfold getEmbeddings, initialize, syncFromCloud, loadCachedEmbeddings,
    loadFromCsv, setOfflineMode, getLastSyncTime, embeddings_or_empty,
    parse_or, JSON_parse, JSON_stringify,
    FileSystem_getInfoAsync, FileSystem_writeAsStringAsync,
    FileSystem_readAsStringAsync, file_op, supabase_select, Date_now_,
    mmkvStorage_getString, mmkvStorage_set,
    set_embeddings, set_initialized, set_isOfflineMode, get,
    try_catch, bind, ret, throw, with_world in *.

Ltac split_cases :=
  repeat match goal with
         | |- context [if ?b then _ else _] => destruct b eqn:?
         | |- context [match ?x with _ => _ end] =>
             lazymatch x with
             | context [match _ with _ => _ end] => fail
             | context [if _ then _ else _] => fail
             | _ => destruct x eqn:?
             end
         | _ => progress cbn in *
         end.

Lemma pushed_app (tr tr' new : list event) :
  pushed tr tr' new -> tr' = new ++ tr.
Proof.
  induction 1 as [|e tr' new _ IH|pre tr' new _ IH]; cbn; [reflexivity| |].
  - now rewrite IH.
  - now rewrite IH, app_assoc.
Qed.

Ltac trace_facts :=
  unfold added; cbn;
  repeat split;
  try (apply pushed_app; repeat constructor);
  try (cbn; rewrite ?in_app_iff; cbn; intuition discriminate);
  try (cbn; rewrite ?in_app_iff; cbn; tauto).

(** [loadCachedEmbeddings] never throws, is purely local, asks nothing of the
    remote store and always reads the cache key. *)
Lemma loadCachedEmbeddings_local (env : environment) (st : state) :
  exists l st' new,
    loadCachedEmbeddings env st = (Return l, st') /\
    local_only st st' /\
    added st st' new /\
    ~ In RemoteSelect new /\
    In (MmkvGet "@embeddings_cache") new.
Proof.
  destruct st as [[off ini embs] [m f so fo rq cr tr]].
  unfold_ops. cbn.
  split_cases; try discriminate.
  all: eexists _, _, _; split; [reflexivity|];
    split; [constructor; reflexivity|]; trace_facts.
Qed.

(** [syncFromCloud] never throws, returns the in-memory set it leaves behind,
    and issues exactly one remote query; the mode flags, the offline-mode key
    and the cache key are not touched. *)
Lemma syncFromCloud_frame (env : environment) (st : state) :
  exists st',
    syncFromCloud env st = (Return (embeddings (this st')), st') /\
    isOfflineMode (this st') = isOfflineMode (this st) /\
    initialized (this st') = initialized (this st) /\
    remote_queries (outside st') = S (remote_queries (outside st)) /\
    offline_mode (mmkv (outside st')) = offline_mode (mmkv (outside st)) /\
    embeddings_cache (mmkv (outside st')) = embeddings_cache (mmkv (outside st)).
Proof.
  destruct st as [[off ini embs] [m f so fo rq cr tr]].
  unfold_ops. cbn.
  split_cases; try discriminate.
  all: match goal with |- exists st', (_, ?s) = _ /\ _ => exists s end;
    cbn; repeat split.
Qed.

(** A pull that brings rows persists their skill names, in order, when both
    writes go through. *)
Lemma syncFromCloud_persists_names
    (env : environment) (st : state) (rows : list row) :
  select_reply env (remote_queries (outside st)) = Resolved (Some rows) None ->
  rows <> [] ->
  set_throws env "@embeddings_last_sync" (storage_ops (outside st)) = false ->
  set_throws env "@skill_names_cache" (S (storage_ops (outside st))) = false ->
  skill_names_cache (mmkv (outside (snd (syncFromCloud env st)))) =
    Some (Stringified (map skill (embeddings (this (snd (syncFromCloud env st)))))).
Proof.
  destruct st as [[off ini embs] [m f so fo rq cr tr]]. cbn.
  intros H Hne F1 F2.
  destruct rows as [|r rows]; [contradiction|].
  unfold_ops; cbn. rewrite H. cbn. rewrite F1. cbn. rewrite F2. cbn.
  rewrite map_map. reflexivity.
Qed.

Ltac use_loadCached env :=
  match goal with
  | |- context [loadCachedEmbeddings env ?s] =>
      let l := fresh "l" in
      let st' := fresh "st'" in
      let new := fresh "new" in
      let E := fresh "E" in
      let L := fresh "L" in
      let A := fresh "A" in
      let NR := fresh "NR" in
      let RD := fresh "RD" in
      destruct (loadCachedEmbeddings_local env s)
        as (l & st' & new & E & L & A & NR & RD);
      rewrite E; destruct L; unfold added in A; cbn in *
  end.

Lemma getEmbeddings_latched (env : environment) (st : state) :
  offline_latched st ->
  exists r st' new,
    getEmbeddings env st = (r, st') /\
    offline_latched st' /\
    remote_queries (outside st') = remote_queries (outside st) /\
    added st st' new /\
    ~ In RemoteSelect new /\
    (embeddings (this st) = [] ->
     initialized (this st) = true \/
     getString_throws env "@embeddings_offline_mode" (storage_ops (outside st)) = false ->
     In (MmkvGet "@embeddings_cache") new).
Proof.
  destruct st as [[off ini embs] [m f so fo rq cr tr]].
  unfold offline_latched. cbn. intros [-> H].
  unfold getEmbeddings, initialize, parse_or, JSON_parse, mmkvStorage_getString,
    set_isOfflineMode, set_initialized, get, bind, ret, with_world. cbn.
  assert (K : forall (A B C D E : Prop), A -> B -> C -> D -> E ->
                 A /\ B /\ C /\ D /\ E) by tauto.
  destruct ini.
  - cbn. destruct embs as [|e embs]; cbn.
    + use_loadCached env. rewrite lo_offline0. cbn.
      eexists _, _, _. split; [reflexivity|].
      unfold added. rewrite A.
      apply K; [split; auto | auto | apply pushed_app; repeat constructor | | ].
      * rewrite ?in_app_iff. cbn. tauto.
      * intros _ _. rewrite ?in_app_iff. auto.
    + eexists _, _, []. split; [reflexivity|]. cbn.
      apply K; auto; try discriminate; reflexivity.
  - destruct H as [H|H]; [discriminate|]. cbn. rewrite H.
    destruct (getString_throws env "@embeddings_offline_mode" so) eqn:F; cbn.
    + eexists _, _, _. split; [reflexivity|].
      unfold added. cbn.
      apply K; [split; auto | auto | apply pushed_app; repeat constructor | | ].
      * cbn. intuition discriminate.
      * intros _ [?|?]; discriminate.
    + use_loadCached env.
      destruct (length (embeddings (this st')) =? 0)%nat; cbn.
      * use_loadCached env. rewrite lo_offline1, lo_offline0. cbn.
        eexists _, _, _. split; [reflexivity|].
        unfold added. cbn. rewrite A0, A.
        apply K; [split; [congruence|auto] | congruence | apply pushed_app; repeat constructor | | ].
        -- rewrite ?in_app_iff. cbn. intuition discriminate.
        -- intros _ _. rewrite ?in_app_iff. auto.
      * rewrite lo_offline0. cbn.
        eexists _, _, _. split; [reflexivity|].
        unfold added. cbn. rewrite A.
        apply K; [split; [congruence|auto] | congruence | apply pushed_app; repeat constructor | | ].
        -- rewrite ?in_app_iff. cbn. intuition discriminate.
        -- intros _ _. rewrite ?in_app_iff. auto.
Qed.

Lemma setOfflineMode_latches (env : environment) (st st1 : state) :
  setOfflineMode env true st = (Return tt, st1) ->
  offline_latched st1 /\
  remote_queries (outside st1) = remote_queries (outside st) /\
  embeddings (this st1) = embeddings (this st) /\
  initialized (this st1) = initialized (this st).
Proof.
  destruct st as [[off ini embs] [m f so fo rq cr tr]].
  unfold_ops. cbn.
  destruct (set_throws env "@embeddings_offline_mode" so); [discriminate|].
  intros [= <-]. unfold offline_latched. cbn. auto.
Qed.

Lemma getEmbeddings_times_latched (env : environment) (n : nat) :
  forall st, offline_latched st ->
  exists new,
    added st (getEmbeddings_times env n st) new /\
    ~ In RemoteSelect new /\
    remote_queries (outside (getEmbeddings_times env n st)) =
    remote_queries (outside st).
Proof.
  induction n as [|n IH]; intros st L; cbn.
  - exists []. unfold added. cbn. auto.
  - destruct (getEmbeddings_latched env st L)
      as (r & st' & new & E & L' & Q & A & NR & _).
    rewrite E. cbn.
    destruct (IH st' L') as (new' & A' & NR' & Q').
    exists (new' ++ new). unfold added in *.
    rewrite A', A, app_assoc, Q', Q, in_app_iff. tauto.
Qed.

(** ** C1: offline mode suppresses the remote pull *)

(** C1.  Once [setOfflineMode(true)] has completed, no number of calls of
    [getEmbeddings()] issues a remote query, whatever the persisted
    timestamp is and whatever the store, the files and the remote side do;
    and a call that finds the in-memory set empty still reads the local
    cache (provided the read of the offline flag by a first initialization
    does not fail). *)
Theorem offline_mode_issues_no_remote_query
    (env : environment) (st st1 : state) :
  setOfflineMode env true st = (Return tt, st1) ->
  (forall n, exists new,
      added st1 (getEmbeddings_times env n st1) new /\
      ~ In RemoteSelect new /\
      remote_queries (outside (getEmbeddings_times env n st1)) =
      remote_queries (outside st)) /\
  (embeddings (this st1) = [] ->
   initialized (this st1) = true \/
   getString_throws env "@embeddings_offline_mode"
     (storage_ops (outside st1)) = false ->
   exists new,
     added st1 (snd (getEmbeddings env st1)) new /\
     In (MmkvGet "@embeddings_cache") new).
Proof.
  intros H. destruct (setOfflineMode_latches env st st1 H) as (L & Q & _ & _).
  split.
  - intros n. destruct (getEmbeddings_times_latched env n st1 L)
      as (new & A & NR & Q').
    exists new. rewrite Q', Q. auto.
  - intros He Hi.
    destruct (getEmbeddings_latched env st1 L)
      as (r & st' & new & E & _ & _ & A & _ & RD).
    rewrite E. exists new. auto.
Qed.

Lemma offline_mode_issues_no_remote_query_witness :
  setOfflineMode calm true fresh =
    (Return tt, snd (setOfflineMode calm true fresh)) /\
  (forall n, exists new,
      added (snd (setOfflineMode calm true fresh))
        (getEmbeddings_times calm n (snd (setOfflineMode calm true fresh))) new /\
      ~ In RemoteSelect new /\
      remote_queries
        (outside (getEmbeddings_times calm n (snd (setOfflineMode calm true fresh)))) =
      remote_queries (outside fresh)).
Proof.
  split; [reflexivity|].
  apply (offline_mode_issues_no_remote_query calm fresh
           (snd (setOfflineMode calm true fresh))).
  reflexivity.
Defined.

(** ** C3, C9: a pull that fails or brings nothing changes nothing *)

(** C3.  When the remote read fails, by an [error] in the reply or by a
    rejection, [syncFromCloud] returns the in-memory set it found, leaves
    the object and the store as they were, and attempts no write: the
    query is the only operation it performs. *)
Theorem syncFromCloud_remote_failure (env : environment) (st : state) :
  (select_reply env (remote_queries (outside st)) = Rejected \/
   exists data e,
     select_reply env (remote_queries (outside st)) = Resolved data (Some e)) ->
  exists st',
    syncFromCloud env st = (Return (embeddings (this st)), st') /\
    this st' = this st /\
    mmkv (outside st') = mmkv (outside st) /\
    added st st' [RemoteSelect].
Proof.
  destruct st as [[off ini embs] [m f so fo rq cr tr]]. cbn.
  intros [H|(data & e & H)]; unfold_ops; cbn; rewrite H; cbn;
    eexists; split; try reflexivity; cbn; repeat split.
Qed.

Lemma syncFromCloud_remote_failure_witness :
  exists st',
    syncFromCloud unreachable (loaded no_storage) = (Return [Sneak], st') /\
    this st' = this (loaded no_storage) /\
    mmkv (outside st') = no_storage /\
    added (loaded no_storage) st' [RemoteSelect].
Proof.
  apply (syncFromCloud_remote_failure unreachable (loaded no_storage)).
  right. exists None, "Network request failed". reflexivity.
Defined.

(** C9.  When the query succeeds with no rows ([data] empty, or absent),
    [syncFromCloud] returns the in-memory set it found and changes nothing:
    the object and the store stay as they were and no write is attempted. *)
Theorem syncFromCloud_no_rows (env : environment) (st : state) :
  (select_reply env (remote_queries (outside st)) = Resolved (Some []) None \/
   select_reply env (remote_queries (outside st)) = Resolved None None) ->
  exists st',
    syncFromCloud env st = (Return (embeddings (this st)), st') /\
    this st' = this st /\
    mmkv (outside st') = mmkv (outside st) /\
    added st st' [RemoteSelect].
Proof.
  destruct st as [[off ini embs] [m f so fo rq cr tr]]. cbn.
  intros [H|H]; unfold_ops; cbn; rewrite H; cbn;
    eexists; split; try reflexivity; cbn; repeat split.
Qed.

Lemma syncFromCloud_no_rows_witness :
  exists st',
    syncFromCloud empty_table (loaded no_storage) = (Return [Sneak], st') /\
    this st' = this (loaded no_storage) /\
    mmkv (outside st') = no_storage /\
    added (loaded no_storage) st' [RemoteSelect].
Proof.
  apply (syncFromCloud_no_rows empty_table (loaded no_storage)).
  left. reflexivity.
Defined.

(** ** C5: what a successful pull does *)

(** C5 as worded covers every successful query; at a successful
    query that returns no row the in-memory set is not replaced by the
    (empty) mapped rows and no timestamp is persisted. *)
Lemma syncFromCloud_empty_reply_keeps_set :
  select_reply empty_table (remote_queries (outside (loaded no_storage))) =
    Resolved (Some []) None /\
  embeddings (this (snd (syncFromCloud empty_table (loaded no_storage)))) <>
    map row_to_entry [] /\
  last_sync (mmkv (outside (snd (syncFromCloud empty_table (loaded no_storage))))) =
    None.
Proof.
  repeat split. cbn. discriminate.
Qed.

(** C5, amended.  When the query succeeds with at least one row and the two
    store writes go through, [syncFromCloud] returns and installs the rows
    mapped to the local shape, in the order received (so sorted by skill
    name when the rows are), and writes the store at exactly two keys: the
    clock reading under the last-sync key and the skill names under the
    skill-names key.  The cache key, which holds vectors, is not written. *)
Theorem syncFromCloud_success
    (env : environment) (st : state) (rows : list row) :
  select_reply env (remote_queries (outside st)) = Resolved (Some rows) None ->
  rows <> [] ->
  set_throws env "@embeddings_last_sync" (storage_ops (outside st)) = false ->
  set_throws env "@skill_names_cache" (S (storage_ops (outside st))) = false ->
  exists st',
    syncFromCloud env st = (Return (map row_to_entry rows), st') /\
    embeddings (this st') = map row_to_entry rows /\
    map skill (embeddings (this st')) = map skill_name rows /\
    map embedding (embeddings (this st')) = map embedding_vector rows /\
    (forall R : string -> string -> Prop,
        Sorted R (map skill_name rows) ->
        Sorted R (map skill (embeddings (this st')))) /\
    mmkv (outside st') =
      update SKILL_NAMES_CACHE_KEY (Stringified (map skill_name rows))
        (update LAST_SYNC_KEY
           (Stringified (Date_now env (clock_reads (outside st))))
           (mmkv (outside st))) /\
    embeddings_cache (mmkv (outside st')) = embeddings_cache (mmkv (outside st)) /\
    offline_mode (mmkv (outside st')) = offline_mode (mmkv (outside st)) /\
    added st st'
      [MmkvSet "@skill_names_cache"; MmkvSet "@embeddings_last_sync";
       ClockRead; RemoteSelect].
Proof.
  destruct st as [[off ini embs] [m f so fo rq cr tr]]. cbn.
  intros H Hne F1 F2.
  assert (Hmap : forall l, map skill (map row_to_entry l) = map skill_name l)
    by (intros l; rewrite map_map; reflexivity).
  assert (Hvec : forall l, map embedding (map row_to_entry l) = map embedding_vector l)
    by (intros l; rewrite map_map; reflexivity).
  destruct rows as [|r rows]; [contradiction|].
  unfold_ops; cbn. rewrite H. cbn. rewrite F1. cbn. rewrite F2. cbn.
  eexists. split; [reflexivity|]. cbn.
  rewrite Hmap, Hvec.
  repeat split; auto.
Qed.

Lemma syncFromCloud_success_witness :
  exists st',
    syncFromCloud calm (loaded no_storage) =
      (Return (map row_to_entry [Fireball_row]), st') /\
    embeddings (this st') = map row_to_entry [Fireball_row] /\
    map skill (embeddings (this st')) = map skill_name [Fireball_row] /\
    map embedding (embeddings (this st')) = map embedding_vector [Fireball_row] /\
    (forall R : string -> string -> Prop,
        Sorted R (map skill_name [Fireball_row]) ->
        Sorted R (map skill (embeddings (this st')))) /\
    mmkv (outside st') =
      update SKILL_NAMES_CACHE_KEY (Stringified (map skill_name [Fireball_row]))
        (update LAST_SYNC_KEY (Stringified 1700000000000%Z) no_storage) /\
    embeddings_cache (mmkv (outside st')) = None /\
    offline_mode (mmkv (outside st')) = None /\
    added (loaded no_storage) st'
      [MmkvSet "@skill_names_cache"; MmkvSet "@embeddings_last_sync";
       ClockRead; RemoteSelect].
Proof.
  apply (syncFromCloud_success calm (loaded no_storage) [Fireball_row]);
    [reflexivity | discriminate | reflexivity | reflexivity].
Defined.

(** ** C4: what survives a sync in the persisted cache *)

(** C4 as worded fails: the set a sync installs is not what the
    cache hands back afterwards. *)
Lemma synced_set_is_not_what_the_cache_returns :
  fst (syncFromCloud calm (loaded cached_Sneak)) =
    Return [row_to_entry Fireball_row] /\
  fst (loadCachedEmbeddings calm (snd (syncFromCloud calm (loaded cached_Sneak)))) =
    Return [Sneak] /\
  skill Sneak <> skill (row_to_entry Fireball_row).
Proof.
  repeat split. cbn. discriminate.
Qed.

(** C4, amended.  A sync never writes the cache key.  A
    [loadCachedEmbeddings()] after a sync therefore returns, and installs in
    memory, the set that the key held before the sync, pair for pair and in
    order; of the synced set, only the skill names are persisted, in order,
    under the skill-names key. *)
Theorem cache_round_trips_what_it_held_before_sync
    (env : environment) (st : state) (cached : list SkillEmbedding) :
  embeddings_cache (mmkv (outside st)) = Some (Stringified cached) ->
  getString_throws env "@embeddings_cache"
    (storage_ops (outside (snd (syncFromCloud env st)))) = false ->
  let st1 := snd (syncFromCloud env st) in
  embeddings_cache (mmkv (outside st1)) = Some (Stringified cached) /\
  (exists st2,
      loadCachedEmbeddings env st1 = (Return cached, st2) /\
      embeddings (this st2) = cached /\
      mmkv (outside st2) = mmkv (outside st1)) /\
  (forall rows,
      select_reply env (remote_queries (outside st)) = Resolved (Some rows) None ->
      rows <> [] ->
      set_throws env "@embeddings_last_sync" (storage_ops (outside st)) = false ->
      set_throws env "@skill_names_cache" (S (storage_ops (outside st))) = false ->
      skill_names_cache (mmkv (outside st1)) =
        Some (Stringified (map skill (embeddings (this st1))))).
Proof.
  intros Hc Hr. cbn zeta.
  destruct (syncFromCloud_frame env st) as (st1 & E & _ & _ & _ & _ & C).
  rewrite E in *. cbn [snd] in *.
  rewrite C, Hc.
  split; [reflexivity|]. split.
  - destruct st1 as [[off ini embs] [m f so fo rq cr tr]]. cbn in *.
    unfold_ops. cbn. rewrite Hr. cbn. rewrite C, Hc. cbn.
    eexists. split; [reflexivity|]. cbn. auto.
  - intros rows H Hne F1 F2.
    pose proof (syncFromCloud_persists_names env st rows H Hne F1 F2) as N.
    rewrite E in N. exact N.
Qed.

Lemma cache_round_trips_what_it_held_before_sync_witness :
  embeddings_cache (mmkv (outside (snd (syncFromCloud calm (loaded cached_Sneak))))) =
    Some (Stringified [Sneak]) /\
  (exists st2,
      loadCachedEmbeddings calm (snd (syncFromCloud calm (loaded cached_Sneak))) =
        (Return [Sneak], st2) /\
      embeddings (this st2) = [Sneak] /\
      mmkv (outside st2) =
        mmkv (outside (snd (syncFromCloud calm (loaded cached_Sneak))))) /\
  skill_names_cache (mmkv (outside (snd (syncFromCloud calm (loaded cached_Sneak))))) =
    Some (Stringified ["Fireball"]).
Proof.
  destruct (cache_round_trips_what_it_held_before_sync calm
              (loaded cached_Sneak) [Sneak] eq_refl eq_refl)
    as (H1 & H2 & H3).
  split; [exact H1|]. split; [exact H2|].
  apply (H3 [Fireball_row]); [reflexivity | discriminate | reflexivity | reflexivity].
Defined.

(** ** The two halves of [getEmbeddings] *)

Lemma getEmbeddings_split (env : environment) (st : state) :
  getEmbeddings env st = (ensure_loaded env;; refresh env) st.
Proof.
  unfold getEmbeddings, ensure_loaded, refresh, bind, get, ret.
  destruct (initialize env st) as [[[]|e] st1]; [|reflexivity].
  destruct (length (embeddings (this st1)) =? 0)%nat; [|reflexivity].
  destruct (loadCachedEmbeddings env st1) as [[l|e] st2]; reflexivity.
Qed.

Lemma ensure_loaded_spec (env : environment) (st : state) (b : bool) :
  (initialized (this st) = true /\ isOfflineMode (this st) = b) \/
  (initialized (this st) = false /\
   getString_throws env "@embeddings_offline_mode" (storage_ops (outside st)) = false /\
   persisted_flag (mmkv (outside st)) = Some b) ->
  exists st0,
    ensure_loaded env st = (Return tt, st0) /\
    isOfflineMode (this st0) = b /\
    initialized (this st0) = true /\
    remote_queries (outside st0) = remote_queries (outside st) /\
    clock_reads (outside st0) = clock_reads (outside st) /\
    last_sync (mmkv (outside st0)) = last_sync (mmkv (outside st)).
Proof.
  destruct st as [[off ini embs] [m f so fo rq cr tr]].
  unfold persisted_flag. cbn.
  unfold ensure_loaded, initialize, parse_or, JSON_parse, mmkvStorage_getString,
    set_isOfflineMode, set_initialized, get, bind, ret, throw, with_world. cbn.
  intros [[-> <-]|(-> & F & P)]; cbn.
  - destruct embs as [|e embs]; cbn.
    + use_loadCached env. eexists. split; [reflexivity|]. auto.
    + eexists. split; [reflexivity|]. cbn. auto.
  - rewrite F.
    destruct (offline_mode m) as [[b'| |]|]; cbn in P; try discriminate;
      injection P as <-; cbn;
      use_loadCached env;
      (destruct (length (embeddings (this st')) =? 0)%nat; cbn;
       [use_loadCached env|]; eexists; (split; [reflexivity|]); cbn;
       repeat split; congruence).
Qed.

Lemma refresh_offline (env : environment) (st : state) :
  isOfflineMode (this st) = true ->
  refresh env st = (Return (embeddings (this st)), st).
Proof.
  intros H. unfold refresh, bind, get. rewrite H. reflexivity.
Qed.

Lemma refresh_online (env : environment) (st : state) (t : Z) :
  isOfflineMode (this st) = false ->
  getString_throws env "@embeddings_last_sync" (storage_ops (outside st)) = false ->
  persisted_last_sync (mmkv (outside st)) = Some t ->
  refresh env st =
    if (Date_now env (clock_reads (outside st)) - t >? ONE_HOUR)%Z
    then syncFromCloud env (checked st)
    else (Return (embeddings (this st)), checked st).
Proof.
  destruct st as [[off ini embs] [m f so fo rq cr tr]].
  unfold persisted_last_sync. cbn. intros -> F P.
  unfold refresh, parse_or, JSON_parse, mmkvStorage_getString, Date_now_,
    get, bind, ret, throw, with_world, checked. cbn -[Z.gtb Z.sub ONE_HOUR].
  rewrite F.
  destruct (last_sync m) as [[t'| |]|]; cbn in P; try discriminate;
    injection P as <-; cbn -[Z.gtb Z.sub ONE_HOUR];
    match goal with |- context [(?x >? ?y)%Z] => destruct (x >? y)%Z end;
    reflexivity.
Qed.

(** Whatever happens in the second half, the mode flags of the object stay. *)
Lemma refresh_flags (env : environment) (st : state) :
  isOfflineMode (this (snd (refresh env st))) = isOfflineMode (this st) /\
  initialized (this (snd (refresh env st))) = initialized (this st).
Proof.
  destruct st as [[off ini embs] [m f so fo rq cr tr]].
  unfold refresh, parse_or, JSON_parse, mmkvStorage_getString, Date_now_,
    get, bind, ret, throw, with_world. cbn -[Z.gtb Z.sub].
  destruct off; cbn -[Z.gtb Z.sub]; [auto|].
  destruct (getString_throws env "@embeddings_last_sync" so); cbn; [auto|].
  destruct (last_sync m) as [[t'| |]|]; cbn -[Z.gtb Z.sub]; auto;
    match goal with |- context [(?x >? ?y)%Z] => destruct (x >? y)%Z end;
    cbn; auto;
    match goal with |- context [syncFromCloud env ?s] =>
      destruct (syncFromCloud_frame env s) as (st' & E & Ho & Hi & _);
      rewrite E; cbn in *; auto
    end.
Qed.

(** A pull that brings rows records the clock reading it takes, whether or
    not the write of the skill names that follows goes through. *)
Lemma syncFromCloud_records_time
    (env : environment) (st : state) (rows : list row) :
  select_reply env (remote_queries (outside st)) = Resolved (Some rows) None ->
  rows <> [] ->
  set_throws env "@embeddings_last_sync" (storage_ops (outside st)) = false ->
  last_sync (mmkv (outside (snd (syncFromCloud env st)))) =
    Some (Stringified (Date_now env (clock_reads (outside st)))) /\
  clock_reads (outside (snd (syncFromCloud env st))) = S (clock_reads (outside st)).
Proof.
  destruct st as [[off ini embs] [m f so fo rq cr tr]]. cbn.
  intros H Hne F1.
  destruct rows as [|r rows]; [contradiction|].
  unfold_ops; cbn. rewrite H. cbn. rewrite F1. cbn.
  destruct (set_throws env "@skill_names_cache" (S so)); split; reflexivity.
Qed.

(** The rule of the pull, for a service that is, or comes out of
    initialization, online. *)
Lemma getEmbeddings_pull_rule (env : environment) (st : state) (t : Z) :
  (initialized (this st) = true /\ isOfflineMode (this st) = false) \/
  (initialized (this st) = false /\
   getString_throws env "@embeddings_offline_mode" (storage_ops (outside st)) = false /\
   persisted_flag (mmkv (outside st)) = Some false) ->
  (forall i, getString_throws env "@embeddings_last_sync" i = false) ->
  persisted_last_sync (mmkv (outside st)) = Some t ->
  exists st0 st',
    getEmbeddings env st = (Return (embeddings (this st')), st') /\
    initialized (this st') = true /\
    isOfflineMode (this st') = false /\
    remote_queries (outside st0) = remote_queries (outside st) /\
    clock_reads (outside st0) = clock_reads (outside st) /\
    (if (Date_now env (clock_reads (outside st)) - t >? ONE_HOUR)%Z
     then st' = snd (syncFromCloud env (checked st0)) /\
          remote_queries (outside st') = S (remote_queries (outside st))
     else st' = checked st0 /\
          remote_queries (outside st') = remote_queries (outside st)).
Proof.
  intros Hready Hread Ht.
  destruct (ensure_loaded_spec env st false Hready)
    as (st0 & E0 & Hoff & Hini & Hrq & Hcr & Hls).
  rewrite getEmbeddings_split. unfold bind at 1. rewrite E0.
  assert (Ht0 : persisted_last_sync (mmkv (outside st0)) = Some t)
    by (unfold persisted_last_sync in *; now rewrite Hls).
  rewrite (refresh_online env st0 t Hoff (Hread _) Ht0). rewrite Hcr.
  exists st0.
  destruct (Date_now env (clock_reads (outside st)) - t >? ONE_HOUR)%Z.
  - destruct (syncFromCloud_frame env (checked st0))
      as (st' & E & Ho & Hi & Hq & _ & _).
    exists st'. rewrite E. cbn in *.
    repeat split; try congruence.
  - exists (checked st0). cbn. repeat split; congruence.
Qed.

(** A pull that brings no row leaves the object, the store and the clock
    alone. *)
Lemma syncFromCloud_barren_pull (env : environment) (st : state) :
  barren (select_reply env (remote_queries (outside st))) ->
  exists st',
    syncFromCloud env st = (Return (embeddings (this st)), st') /\
    this st' = this st /\
    mmkv (outside st') = mmkv (outside st) /\
    clock_reads (outside st') = clock_reads (outside st) /\
    remote_queries (outside st') = S (remote_queries (outside st)).
Proof.
  destruct st as [[off ini embs] [m f so fo rq cr tr]]. cbn.
  intros B. unfold_ops. cbn.
  destruct (select_reply env rq) as [[[|r rows]|] [e|]|]; cbn in *;
    try contradiction;
    (eexists; split; [reflexivity|]; cbn; auto).
Qed.

(** A call of an online, initialized service whose pull brings no row. *)
Lemma getEmbeddings_barren_pull (env : environment) (st : state) (t : Z) :
  initialized (this st) = true ->
  isOfflineMode (this st) = false ->
  (forall i, getString_throws env "@embeddings_last_sync" i = false) ->
  persisted_last_sync (mmkv (outside st)) = Some t ->
  (Date_now env (clock_reads (outside st)) - t >? ONE_HOUR)%Z = true ->
  barren (select_reply env (remote_queries (outside st))) ->
  let st1 := snd (getEmbeddings env st) in
  initialized (this st1) = true /\
  isOfflineMode (this st1) = false /\
  last_sync (mmkv (outside st1)) = last_sync (mmkv (outside st)) /\
  remote_queries (outside st1) = S (remote_queries (outside st)) /\
  clock_reads (outside st1) = S (clock_reads (outside st)).
Proof.
  intros Hi Ho Hread Ht Hstale Hb. cbn zeta.
  destruct (ensure_loaded_spec env st false (or_introl (conj Hi Ho)))
    as (s0 & E0 & Ho0 & Hi0 & Hq0 & Hc0 & Hl0).
  assert (Ht0 : persisted_last_sync (mmkv (outside s0)) = Some t)
    by (unfold persisted_last_sync in *; now rewrite Hl0).
  assert (E : getEmbeddings env st = syncFromCloud env (checked s0)).
  { rewrite getEmbeddings_split. unfold bind at 1. rewrite E0.
    rewrite (refresh_online env s0 t Ho0 (Hread _) Ht0), Hc0, Hstale.
    reflexivity. }
  rewrite E.
  destruct (syncFromCloud_barren_pull env (checked s0)) as (s1 & E1 & H1 & H2 & H3 & H4).
  { cbn. now rewrite Hq0. }
  rewrite E1. cbn [snd]. cbn in H1, H2, H3, H4.
  rewrite H1, H2, H3, H4. repeat split; congruence.
Qed.

(** ** C2: the staleness window *)

(** C2 as worded fails when the pull brings nothing: with the network
    down, two calls made at the same instant by an online, initialized
    service perform two remote queries. *)
Lemma two_calls_in_one_window_pull_twice :
  isOfflineMode (this (loaded no_storage)) = false /\
  Date_now unreachable 0 = Date_now unreachable 1 /\
  remote_queries (outside (loaded no_storage)) = 0%nat /\
  remote_queries (outside (getEmbeddings_times unreachable 2 (loaded no_storage))) = 2%nat.
Proof.
  repeat split.
Qed.

(** C2, amended.  For an initialized service in online mode whose reads of
    the last-sync key succeed: a call pulls exactly when its clock reading
    is more than one hour past the persisted timestamp (0 when none is
    persisted), so never more than once; a pull that brings rows records the
    clock reading taken during the pull; and the next call pulls again
    exactly when its own reading is more than one hour past the timestamp
    then persisted.  A pull that fails or brings no row records nothing:
    the persisted timestamp stays as it was, so the next call pulls again
    exactly when its reading is still more than one hour past it, which it
    is whenever the clock has not stepped back between the two calls. *)
Theorem staleness_window (env : environment) (st : state) :
  initialized (this st) = true ->
  isOfflineMode (this st) = false ->
  (forall i, getString_throws env "@embeddings_last_sync" i = false) ->
  let st1 := snd (getEmbeddings env st) in
  let st2 := snd (getEmbeddings env st1) in
  (forall t, persisted_last_sync (mmkv (outside st)) = Some t ->
     remote_queries (outside st1) =
       if (Date_now env (clock_reads (outside st)) - t >? ONE_HOUR)%Z
       then S (remote_queries (outside st))
       else remote_queries (outside st)) /\
  (forall t rows,
     persisted_last_sync (mmkv (outside st)) = Some t ->
     (Date_now env (clock_reads (outside st)) - t >? ONE_HOUR)%Z = true ->
     select_reply env (remote_queries (outside st)) = Resolved (Some rows) None ->
     rows <> [] ->
     (forall i, set_throws env "@embeddings_last_sync" i = false) ->
     last_sync (mmkv (outside st1)) =
       Some (Stringified (Date_now env (S (clock_reads (outside st)))))) /\
  (forall t1, persisted_last_sync (mmkv (outside st1)) = Some t1 ->
     remote_queries (outside st2) =
       if (Date_now env (clock_reads (outside st1)) - t1 >? ONE_HOUR)%Z
       then S (remote_queries (outside st1))
       else remote_queries (outside st1)) /\
  (forall t rows,
     persisted_last_sync (mmkv (outside st)) = Some t ->
     (Date_now env (clock_reads (outside st)) - t >? ONE_HOUR)%Z = true ->
     select_reply env (remote_queries (outside st)) = Resolved (Some rows) None ->
     rows <> [] ->
     (forall i, set_throws env "@embeddings_last_sync" i = false) ->
     remote_queries (outside st2) =
       if (Date_now env (S (S (clock_reads (outside st))))
           - Date_now env (S (clock_reads (outside st))) >? ONE_HOUR)%Z
       then S (S (remote_queries (outside st)))
       else S (remote_queries (outside st))) /\
  (forall t,
     persisted_last_sync (mmkv (outside st)) = Some t ->
     (Date_now env (clock_reads (outside st)) - t >? ONE_HOUR)%Z = true ->
     barren (select_reply env (remote_queries (outside st))) ->
     last_sync (mmkv (outside st1)) = last_sync (mmkv (outside st)) /\
     remote_queries (outside st1) = S (remote_queries (outside st)) /\
     remote_queries (outside st2) =
       (if (Date_now env (S (clock_reads (outside st))) - t >? ONE_HOUR)%Z
        then S (S (remote_queries (outside st)))
        else S (remote_queries (outside st))) /\
     ((Date_now env (clock_reads (outside st)) <=
       Date_now env (S (clock_reads (outside st))))%Z ->
      remote_queries (outside st2) = S (S (remote_queries (outside st))))).
Proof.
  intros Hini Hoff Hread. cbn zeta.
  assert (Rule : forall s t,
             initialized (this s) = true -> isOfflineMode (this s) = false ->
             persisted_last_sync (mmkv (outside s)) = Some t ->
             remote_queries (outside (snd (getEmbeddings env s))) =
               if (Date_now env (clock_reads (outside s)) - t >? ONE_HOUR)%Z
               then S (remote_queries (outside s))
               else remote_queries (outside s)).
  { intros s t Hi Ho Ht.
    destruct (getEmbeddings_pull_rule env s t (or_introl (conj Hi Ho)) Hread Ht)
      as (s0 & s' & E & _ & _ & _ & _ & R).
    rewrite E. cbn [snd].
    destruct (_ >? ONE_HOUR)%Z; tauto. }
  assert (Pull : forall t rows,
             persisted_last_sync (mmkv (outside st)) = Some t ->
             (Date_now env (clock_reads (outside st)) - t >? ONE_HOUR)%Z = true ->
             select_reply env (remote_queries (outside st)) = Resolved (Some rows) None ->
             rows <> [] ->
             (forall i, set_throws env "@embeddings_last_sync" i = false) ->
             let s1 := snd (getEmbeddings env st) in
             initialized (this s1) = true /\ isOfflineMode (this s1) = false /\
             remote_queries (outside s1) = S (remote_queries (outside st)) /\
             clock_reads (outside s1) = S (S (clock_reads (outside st))) /\
             last_sync (mmkv (outside s1)) =
               Some (Stringified (Date_now env (S (clock_reads (outside st)))))).
  { intros t rows Ht Hstale Hreply Hne Hset. cbn zeta.
    destruct (getEmbeddings_pull_rule env st t (or_introl (conj Hini Hoff)) Hread Ht)
      as (s0 & s' & E & Hi' & Ho' & Hq & Hc & R).
    rewrite E. cbn [snd]. rewrite Hstale in R. destruct R as [R Q].
    destruct (syncFromCloud_records_time env (checked s0) rows) as (T & C); cbn;
      [now rewrite Hq | assumption | apply Hset |].
    cbn in T, C. rewrite <- R in T, C. rewrite Hc in T, C. auto. }
  split; [|split; [|split; [|split]]].
  - intros t Ht. now apply Rule.
  - intros t rows Ht Hstale Hreply Hne Hset.
    now destruct (Pull t rows Ht Hstale Hreply Hne Hset) as (_ & _ & _ & _ & T).
  - intros t1 Ht1.
    destruct (ensure_loaded_spec env st false (or_introl (conj Hini Hoff)))
      as (s0 & E0 & Ho0 & Hi0 & _ & _ & Hls).
    destruct (refresh_flags env s0) as (Ho1 & Hi1).
    apply Rule; trivial;
      rewrite getEmbeddings_split; unfold bind at 1; rewrite E0; congruence.
  - intros t rows Ht Hstale Hreply Hne Hset.
    destruct (Pull t rows Ht Hstale Hreply Hne Hset) as (Hi1 & Ho1 & Q & C & T).
    cbn zeta in *.
    rewrite (Rule _ (Date_now env (S (clock_reads (outside st)))) Hi1 Ho1);
      [| unfold persisted_last_sync; now rewrite T].
    rewrite C, Q. reflexivity.
  - intros t Ht Hstale Hb.
    destruct (getEmbeddings_barren_pull env st t Hini Hoff Hread Ht Hstale Hb)
      as (Hi1 & Ho1 & L & Q & C).
    assert (Ht1 : persisted_last_sync
                    (mmkv (outside (snd (getEmbeddings env st)))) = Some t)
      by (unfold persisted_last_sync in *; now rewrite L).
    pose proof (Rule _ t Hi1 Ho1 Ht1) as R. rewrite C, Q in R.
    split; [exact L|]. split; [exact Q|]. split; [exact R|].
    intros Hmono. rewrite R.
    assert (G : (Date_now env (S (clock_reads (outside st))) - t >? ONE_HOUR)%Z = true).
    { rewrite Z.gtb_ltb in *. apply Z.ltb_lt in Hstale. apply Z.ltb_lt. lia. }
    now rewrite G.
Qed.

Lemma staleness_window_witness :
  remote_queries (outside (snd (getEmbeddings calm (loaded no_storage)))) = 1%nat /\
  last_sync (mmkv (outside (snd (getEmbeddings calm (loaded no_storage))))) =
    Some (Stringified 1700000000000%Z) /\
  remote_queries
    (outside (snd (getEmbeddings calm
                     (snd (getEmbeddings calm (loaded no_storage)))))) = 1%nat.
Proof.
  destruct (staleness_window calm (loaded no_storage)
              eq_refl eq_refl (fun _ => eq_refl)) as (A & B & _ & D & _).
  split; [exact (A 0%Z eq_refl)|].
  split.
  - apply (B 0%Z [Fireball_row]); [reflexivity | reflexivity | reflexivity | discriminate | reflexivity].
  - apply (D 0%Z [Fireball_row]); [reflexivity | reflexivity | reflexivity | discriminate | reflexivity].
Defined.

(** ** C7: which failures reach the caller of [getEmbeddings] *)

(** C7 as worded fails: a store whose reads are rejected makes the
    very first call of [getEmbeddings()] reject, in the read of the offline
    flag that [initialize] makes outside any [try]; so does a store that
    works but holds, under the offline-mode key, a text that is not JSON. *)
Lemma getEmbeddings_propagates_store_failure :
  fst (getEmbeddings broken_store fresh) = Throw StorageError /\
  fst (getEmbeddings calm
         {| this := constructor; outside := new_world corrupted_flag None |}) =
    Throw SyntaxError.
Proof.
  split; reflexivity.
Qed.

(** What the second half returns is the in-memory set it leaves behind. *)
Lemma refresh_returns_memory
    (env : environment) (st st' : state) (l : list SkillEmbedding) :
  refresh env st = (Return l, st') -> l = embeddings (this st').
Proof.
  destruct st as [[off ini embs] [m f so fo rq cr tr]].
  unfold refresh, parse_or, JSON_parse, mmkvStorage_getString, Date_now_,
    get, bind, ret, throw, with_world. cbn -[Z.gtb Z.sub].
  destruct off; cbn -[Z.gtb Z.sub]; [now intros [= <- <-]|].
  destruct (getString_throws env "@embeddings_last_sync" so);
    cbn -[Z.gtb Z.sub]; [discriminate|].
  destruct (last_sync m) as [[t'| |]|]; cbn -[Z.gtb Z.sub]; try discriminate;
    match goal with |- context [(?x >? ?y)%Z] => destruct (x >? y)%Z end;
    try (now intros [= <- <-]);
    match goal with |- context [syncFromCloud env ?s] =>
      destruct (syncFromCloud_frame env s) as (s1 & E & _); rewrite E;
      now intros [= <- <-]
    end.
Qed.

(** The read of the last-sync key is made outside any [try]: an online
    service whose read is rejected, or finds a text that is not JSON,
    rejects. *)
Lemma refresh_propagates (env : environment) (st : state) :
  isOfflineMode (this st) = false ->
  (getString_throws env "@embeddings_last_sync" (storage_ops (outside st)) = true ->
   fst (refresh env st) = Throw StorageError) /\
  (getString_throws env "@embeddings_last_sync" (storage_ops (outside st)) = false ->
   last_sync (mmkv (outside st)) = Some Malformed ->
   fst (refresh env st) = Throw SyntaxError).
Proof.
  destruct st as [[off ini embs] [m f so fo rq cr tr]]. cbn. intros ->.
  unfold refresh, parse_or, JSON_parse, mmkvStorage_getString, Date_now_,
    get, bind, ret, throw, with_world. cbn -[Z.gtb Z.sub].
  split.
  - intros ->. reflexivity.
  - intros -> ->. reflexivity.
Qed.

(** The read of the offline flag is made outside any [try] too. *)
Lemma initialize_propagates (env : environment) (st : state) :
  initialized (this st) = false ->
  (getString_throws env "@embeddings_offline_mode" (storage_ops (outside st)) = true ->
   fst (getEmbeddings env st) = Throw StorageError) /\
  (getString_throws env "@embeddings_offline_mode" (storage_ops (outside st)) = false ->
   offline_mode (mmkv (outside st)) = Some Malformed ->
   fst (getEmbeddings env st) = Throw SyntaxError).
Proof.
  destruct st as [[off ini embs] [m f so fo rq cr tr]]. cbn. intros ->.
  unfold getEmbeddings, initialize, parse_or, JSON_parse, mmkvStorage_getString,
    get, bind, ret, throw, with_world. cbn.
  split.
  - intros ->. reflexivity.
  - intros -> ->. reflexivity.
Qed.

(** C7, amended.  The store holds, under each key, nothing, the empty
    string, a text that is not JSON, or the JSON text of a value of the
    shape the service writes there.  Then no failure of the remote query, of
    the file system, of the cache read or of any store write reaches the
    caller of [getEmbeddings()]:
    - when the reads of the offline flag and of the last-sync timestamp
      succeed and neither key holds a text that is not JSON, the call
      returns the in-memory set it leaves behind;
    - so it does, whatever the last-sync key does, when the service is or
      comes up offline;
    - whenever the call returns, it returns the in-memory set it leaves
      behind.
    The two reads made outside any [try] are the failures that do reach the
    caller.  On a service not yet initialized, a rejected read of the
    offline flag rejects the call with the error of the store, and a text
    that is not JSON under that key with the error of [JSON.parse].  On a
    service that is or comes up online, a last-sync key whose reads are
    rejected rejects the call with the error of the store, and a text that
    is not JSON under that key with the error of [JSON.parse]. *)
Theorem getEmbeddings_never_fails_on_remote_file_or_cache_errors
    (env : environment) (st : state) :
  ((forall i, getString_throws env "@embeddings_offline_mode" i = false) ->
   (forall i, getString_throws env "@embeddings_last_sync" i = false) ->
   offline_mode (mmkv (outside st)) <> Some Malformed ->
   last_sync (mmkv (outside st)) <> Some Malformed ->
   exists st',
     getEmbeddings env st = (Return (embeddings (this st')), st')) /\
  (comes_up env st true ->
   exists st',
     getEmbeddings env st = (Return (embeddings (this st')), st')) /\
  (forall l st',
     getEmbeddings env st = (Return l, st') -> l = embeddings (this st')) /\
  (initialized (this st) = false ->
   getString_throws env "@embeddings_offline_mode" (storage_ops (outside st)) = true ->
   fst (getEmbeddings env st) = Throw StorageError) /\
  (initialized (this st) = false ->
   getString_throws env "@embeddings_offline_mode" (storage_ops (outside st)) = false ->
   offline_mode (mmkv (outside st)) = Some Malformed ->
   fst (getEmbeddings env st) = Throw SyntaxError) /\
  (comes_up env st false ->
   (forall i, getString_throws env "@embeddings_last_sync" i = true) ->
   fst (getEmbeddings env st) = Throw StorageError) /\
  (comes_up env st false ->
   (forall i, getString_throws env "@embeddings_last_sync" i = false) ->
   last_sync (mmkv (outside st)) = Some Malformed ->
   fst (getEmbeddings env st) = Throw SyntaxError).
Proof.
  assert (Hoff : comes_up env st true ->
                 exists st',
                   getEmbeddings env st = (Return (embeddings (this st')), st')).
  { intros Hb.
    destruct (ensure_loaded_spec env st true Hb) as (st0 & E0 & Ho & _).
    rewrite getEmbeddings_split. unfold bind at 1. rewrite E0.
    rewrite (refresh_offline env st0 Ho). eauto. }
  split.
  { intros Hflag Hsync Wflag Wsync.
    assert (Hb : exists b, comes_up env st b).
    { unfold comes_up. destruct (initialized (this st)) eqn:Hi.
      - exists (isOfflineMode (this st)). auto.
      - unfold persisted_flag.
        destruct (offline_mode (mmkv (outside st))) as [[b| |]|];
          try (now exfalso; apply Wflag);
          eexists; right; repeat split; apply Hflag. }
    destruct Hb as ([|] & Hb); [now apply Hoff|].
    assert (Ht : exists t, persisted_last_sync (mmkv (outside st)) = Some t).
    { unfold persisted_last_sync.
      destruct (last_sync (mmkv (outside st))) as [[t| |]|];
        try (now exfalso; apply Wsync); eexists; reflexivity. }
    destruct Ht as (t & Ht).
    destruct (getEmbeddings_pull_rule env st t Hb Hsync Ht)
      as (s0 & s' & E & _).
    eauto. }
  split; [exact Hoff|].
  split.
  { intros l st'. rewrite getEmbeddings_split. unfold bind at 1.
    destruct (ensure_loaded env st) as [[[]|e] st0]; [|discriminate].
    apply refresh_returns_memory. }
  split; [intros Hi; now apply (initialize_propagates env st Hi)|].
  split; [intros Hi; now apply (initialize_propagates env st Hi)|].
  split.
  - intros Hb Hread.
    destruct (ensure_loaded_spec env st false Hb)
      as (st0 & E0 & Ho & _).
    rewrite getEmbeddings_split. unfold bind at 1. rewrite E0.
    now apply (refresh_propagates env st0 Ho).
  - intros Hb Hread Hbad.
    destruct (ensure_loaded_spec env st false Hb)
      as (st0 & E0 & Ho & _ & _ & _ & Hls).
    rewrite getEmbeddings_split. unfold bind at 1. rewrite E0.
    apply (refresh_propagates env st0 Ho); [apply Hread | now rewrite Hls].
Qed.

Lemma getEmbeddings_never_fails_on_remote_file_or_cache_errors_witness :
  exists st',
    getEmbeddings hostile fresh = (Return (embeddings (this st')), st').
Proof.
  apply (proj1 (getEmbeddings_never_fails_on_remote_file_or_cache_errors
                  hostile fresh));
    [reflexivity | reflexivity | discriminate | discriminate].
Defined.

(** ** C8: [setOfflineMode] *)

(** C8 as worded fails: when the store rejects the write,
    [setOfflineMode(true)] rejects, although the flag is set in memory. *)
Lemma setOfflineMode_propagates_store_failure :
  fst (setOfflineMode broken_store true fresh) = Throw StorageError /\
  getOfflineMode (this (snd (setOfflineMode broken_store true fresh))) = true.
Proof.
  split; reflexivity.
Qed.

(** C8, amended.  [setOfflineMode(flag)] always sets the in-memory flag, so
    that [getOfflineMode()] returns [flag] afterwards; it completes exactly
    when the write of the flag to the store succeeds, and then the store
    holds the flag; a failing write is propagated to the caller and leaves
    the store as it was. *)
Theorem setOfflineMode_sets_flag_and_reports_write
    (env : environment) (st : state) (flag : bool) :
  let r := fst (setOfflineMode env flag st) in
  let st' := snd (setOfflineMode env flag st) in
  getOfflineMode (this st') = flag /\
  (if set_throws env "@embeddings_offline_mode" (storage_ops (outside st))
   then r = Throw StorageError /\
        mmkv (outside st') = mmkv (outside st)
   else r = Return tt /\
        mmkv (outside st') =
          update OFFLINE_MODE_KEY (Stringified flag) (mmkv (outside st))) /\
  initialized (this st') = initialized (this st) /\
  embeddings (this st') = embeddings (this st).
Proof.
  destruct st as [[off ini embs] [m f so fo rq cr tr]].
  unfold_ops. cbn.
  destruct (set_throws env "@embeddings_offline_mode" so); cbn; auto.
Qed.

(** ** C10: [getOfflineMode] before initialization *)

(** C10 as worded fails: [setOfflineMode(true)] sets the flag in
    memory without running [initialize], so that [getOfflineMode()] returns
    [true] on a service that was never initialized. *)
Lemma getOfflineMode_true_before_initialize :
  initialized (this (snd (setOfflineMode calm true fresh))) = false /\
  getOfflineMode (this (snd (setOfflineMode calm true fresh))) = true.
Proof.
  split; reflexivity.
Qed.

Lemma loadFromCsv_flags (env : environment) (st : state) :
  initialized (this (snd (loadFromCsv env st))) = initialized (this st) /\
  isOfflineMode (this (snd (loadFromCsv env st))) = isOfflineMode (this st).
Proof.
  destruct st as [[off ini embs] [m f so fo rq cr tr]].
  unfold_ops. cbn.
  split_cases; try discriminate; auto.
Qed.

Lemma uploadToCloud_flags (env : environment) (remote : cloud) (st : state) :
  initialized (this (snd (uploadToCloud env remote st))) = initialized (this st) /\
  isOfflineMode (this (snd (uploadToCloud env remote st))) = isOfflineMode (this st).
Proof.
  destruct st as [[off ini embs] [m f so fo rq cr tr]].
  unfold uploadToCloud, clear_and_upsert, upsert_and_stamp, await, try_catch,
    bind, ret, get, Date_now_, mmkvStorage_set, JSON_stringify, with_world.
  cbn.
  destruct off; cbn; [auto|].
  destruct embs as [|e0 embs]; cbn; [use_loadCached env|];
    destruct (getSession_reply remote) as [[|]|]; cbn;
    try destruct (signInAnonymously_reply remote) as [[se|]|]; cbn;
    try destruct (delete_reply remote) as [[de|]|]; cbn;
    try destruct (permission_error de); cbn;
    try match goal with
        | |- context [upsert_reply remote ?p] =>
            destruct (upsert_reply remote p) as [[ue|]|]; cbn
        end;
    try match goal with
        | |- context [set_throws env ?k ?n] =>
            destruct (set_throws env k n); cbn
        end;
    split; congruence.
Qed.

(** Only [setOfflineMode] writes the offline flag of the object, and none of
    these calls marks the service initialized. *)
Lemma after_call_flags (env : environment) (c : call) (st : state) :
  initialized (this (after_call env c st)) = initialized (this st) /\
  isOfflineMode (this (after_call env c st)) =
    last_flag (isOfflineMode (this st)) [c].
Proof.
  destruct c as [b| | | | | |remote]; cbn [after_call last_flag].
  - destruct st as [[off ini embs] [m f so fo rq cr tr]].
    unfold_ops. cbn.
    destruct (set_throws env "@embeddings_offline_mode" so); cbn; auto.
  - auto.
  - destruct st as [[off ini embs] [m f so fo rq cr tr]].
    unfold_ops. cbn.
    destruct (getString_throws env "@embeddings_last_sync" so); cbn; [auto|].
    destruct (last_sync m) as [[t| |]|]; cbn; auto.
  - destruct (loadCachedEmbeddings_local env st) as (l & st' & new & E & L & _).
    rewrite E. destruct L. cbn. auto.
  - apply loadFromCsv_flags.
  - destruct (syncFromCloud_frame env st) as (st' & E & Ho & Hi & _).
    rewrite E. cbn. auto.
  - apply uploadToCloud_flags.
Qed.

Lemma after_calls_flags (env : environment) (calls : list call) :
  forall st,
    initialized (this (after_calls env calls st)) = initialized (this st) /\
    isOfflineMode (this (after_calls env calls st)) =
      last_flag (isOfflineMode (this st)) calls.
Proof.
  induction calls as [|c rest IH]; intros st; cbn [after_calls]; [auto|].
  destruct (IH (after_call env c st)) as [Hi Ho].
  destruct (after_call_flags env c st) as [Hi' Ho'].
  rewrite Hi, Ho, Hi', Ho'.
  split; [reflexivity|].
  destruct c; reflexivity.
Qed.

(** The first run of [initialize], when the read of the flag succeeds and
    finds no text that is not JSON, installs the persisted flag. *)
Lemma initialize_installs_flag (env : environment) (st : state) (flag : bool) :
  initialized (this st) = false ->
  getString_throws env "@embeddings_offline_mode" (storage_ops (outside st)) = false ->
  persisted_flag (mmkv (outside st)) = Some flag ->
  fst (initialize env st) = Return tt /\
  initialized (this (snd (initialize env st))) = true /\
  isOfflineMode (this (snd (initialize env st))) = flag.
Proof.
  destruct st as [[off ini embs] [m f so fo rq cr tr]].
  unfold persisted_flag. cbn. intros -> F P.
  unfold initialize, parse_or, JSON_parse, mmkvStorage_getString,
    set_isOfflineMode, set_initialized, get, bind, ret, throw, with_world. cbn.
  rewrite F.
  destruct (offline_mode m) as [[b'| |]|]; cbn in P; try discriminate;
    injection P as <-; cbn; use_loadCached env; auto.
Qed.

(** C10, amended.  [getOfflineMode()] is a read of the field, without any
    access to the world.  On a service constructed and then used through
    any calls that do not run [initialize], whatever the store holds and
    whether the calls succeed or fail, the service is still not initialized
    and [getOfflineMode()] returns the flag passed to the last
    [setOfflineMode], and [false] when there was none: the persisted flag
    plays no part.  The persisted flag takes effect when [initialize()]
    runs: if the read of the flag succeeds and does not find a text that is
    not JSON, [initialize()] completes and [getOfflineMode()] then returns
    the persisted flag, [false] when the key is absent or empty, whatever
    it returned before. *)
Theorem getOfflineMode_before_and_after_initialize
    (env : environment) (w : world) (calls : list call) :
  let st := after_calls env calls {| this := constructor; outside := w |} in
  initialized (this st) = false /\
  getOfflineMode (this st) = last_flag false calls /\
  (forall flag,
      getString_throws env "@embeddings_offline_mode"
        (storage_ops (outside st)) = false ->
      persisted_flag (mmkv (outside st)) = Some flag ->
      fst (initialize env st) = Return tt /\
      initialized (this (snd (initialize env st))) = true /\
      getOfflineMode (this (snd (initialize env st))) = flag).
Proof.
  cbn zeta.
  destruct (after_calls_flags env calls {| this := constructor; outside := w |})
    as [Hi Ho].
  cbn in Hi, Ho.
  split; [exact Hi|].
  split; [exact Ho|].
  intros flag F P. now apply initialize_installs_flag.
Qed.

Lemma getOfflineMode_before_and_after_initialize_witness :
  getOfflineMode
    (this (after_calls read_only_store [SetOfflineMode true; LoadFromCsv]
             {| this := constructor;
                outside := new_world no_storage None |})) = true /\
  getOfflineMode
    (this (snd (initialize read_only_store
                  (after_calls read_only_store [SetOfflineMode true; LoadFromCsv]
                     {| this := constructor;
                        outside := new_world no_storage None |})))) = false.
Proof.
  destruct (getOfflineMode_before_and_after_initialize read_only_store
              (new_world no_storage None) [SetOfflineMode true; LoadFromCsv])
    as (_ & H & K).
  split; [exact H|].
  apply (K false); reflexivity.
Defined.

(** ** C6: the CSV reader *)

Lemma split_cons (sep : ascii) (s : string) :
  exists piece rest, split sep s = piece :: rest.
Proof.
  induction s as [|c s (piece & rest & IH)]; cbn; [eauto|].
  destruct (Ascii.eqb c sep); [eauto|]. rewrite IH. eauto.
Qed.

Lemma split_first_piece (sep : ascii) (a b : string) :
  occurrences sep a = 0%nat ->
  split sep (a ++ String sep b) = a :: split sep b.
Proof.
  induction a as [|c a IH]; cbn.
  - now rewrite Ascii.eqb_refl.
  - destruct (Ascii.eqb c sep); [discriminate|].
    intros H. now rewrite (IH H).
Qed.

Lemma split_length (sep : ascii) (s : string) :
  length (split sep s) = S (occurrences sep s).
Proof.
  induction s as [|c s IH]; cbn; [reflexivity|].
  destruct (Ascii.eqb c sep); cbn; [now rewrite IH|].
  destruct (split_cons sep s) as (piece & rest & E).
  rewrite E in *. cbn in *. exact IH.
Qed.

Lemma remove_quotes_spaces (s : string) :
  occurrences space (remove_quotes s) = occurrences space s.
Proof.
  induction s as [|c s IH]; cbn; [reflexivity|].
  destruct (Ascii.eqb c dquote) eqn:Q; cbn.
  - apply Ascii.eqb_eq in Q. subst c. exact IH.
  - now rewrite IH.
Qed.

Lemma trim_blank (s : string) : blank s = true -> trim s = EmptyString.
Proof.
  unfold trim, blank.
  induction s as [|c s IH]; cbn; [reflexivity|].
  destruct (isWhiteSpace c); cbn; [exact IH | discriminate].
Qed.

Lemma trimEnd_keeps (c : ascii) (s : string) :
  isWhiteSpace c = false -> is_empty (trimEnd (String c s)) = false.
Proof.
  intros H. cbn. rewrite H. destruct (trimEnd s); reflexivity.
Qed.

Lemma trimEnd_mark (a b : string) (c : ascii) :
  isWhiteSpace c = false -> is_empty (trimEnd (a ++ String c b)) = false.
Proof.
  intros H. induction a as [|x a IH]; cbn [append].
  - now apply trimEnd_keeps.
  - cbn. destruct (trimEnd (a ++ String c b)); [discriminate|reflexivity].
Qed.

Lemma trim_mark (a b : string) (c : ascii) :
  isWhiteSpace c = false -> is_empty (trim (a ++ String c b)) = false.
Proof.
  intros H. unfold trim.
  induction a as [|x a IH]; cbn [append trimStart].
  - rewrite H. now apply trimEnd_keeps.
  - destruct (isWhiteSpace x) eqn:W; [exact IH|].
    change (String x (a ++ String c b)) with (String x a ++ String c b)%string.
    now apply trimEnd_mark.
Qed.

Lemma split_first_comma_none (s : string) :
  no_comma s = true -> split_first_comma s = (s, None).
Proof.
  unfold no_comma.
  induction s as [|c s IH]; cbn; [reflexivity|].
  destruct (Ascii.eqb c comma); cbn; [discriminate|].
  intros H. now rewrite (IH H).
Qed.

Lemma split_first_comma_last (s : string) :
  no_comma s = true ->
  split_first_comma (s ++ String comma EmptyString) =
    ((s ++ String comma EmptyString)%string, None).
Proof.
  unfold no_comma.
  induction s as [|c s IH]; cbn; [reflexivity|].
  destruct (Ascii.eqb c comma); cbn; [discriminate|].
  intros H. now rewrite (IH H).
Qed.

Lemma split_first_comma_at (skill rest : string) :
  no_comma skill = true ->
  is_empty (dot_plus rest) = false ->
  split_first_comma (skill ++ String comma rest) = (skill, Some (dot_plus rest)).
Proof.
  unfold no_comma. intros H D.
  induction skill as [|c skill IH]; cbn.
  - destruct (dot_plus rest); [discriminate|reflexivity].
  - cbn in H. destruct (Ascii.eqb c comma); cbn in H; [discriminate|].
    now rewrite (IH H).
Qed.

Lemma dot_plus_stops (field tail : string) :
  one_line field = true ->
  is_empty (dot_plus tail) = true ->
  dot_plus (field ++ tail) = field.
Proof.
  unfold one_line.
  induction field as [|c field IH]; cbn.
  - intros _. destruct (dot_plus tail); [reflexivity|discriminate].
  - destruct (isLineTerminator c); cbn; [discriminate|].
    intros H D. now rewrite (IH H D).
Qed.

Lemma parse_rows_app (rows1 rows2 : list string) :
  parse_rows (rows1 ++ rows2) = parse_rows rows1 ++ parse_rows rows2.
Proof.
  induction rows1 as [|r rows1 IH]; cbn; [reflexivity|].
  destruct (is_empty (trim r)); [exact IH|].
  destruct (split_first_comma r) as [skill [e|]]; [|exact IH].
  destruct (is_empty skill || is_empty e); [exact IH|].
  cbn. now rewrite IH.
Qed.

Lemma parse_rows_one (r : string) : (length (parse_rows [r]) <= 1)%nat.
Proof.
  cbn. destruct (is_empty (trim r)); [cbn; lia|].
  destruct (split_first_comma r) as [skill [e|]]; [|cbn; lia].
  destruct (is_empty skill || is_empty e); cbn; lia.
Qed.

Lemma loadFromCsv_returns (env : environment) (st : state) :
  exists l st', loadFromCsv env st = (Return l, st').
Proof.
  destruct st as [[off ini embs] [m f so fo rq cr tr]].
  unfold_ops. cbn.
  split_cases; eauto.
Qed.

Lemma loadFromCsv_reads (env : environment) (st : state) (content : string) :
  csv_file (outside st) = Some content ->
  (forall i, file_throws env i = false) ->
  set_throws env "@embeddings_cache" (storage_ops (outside st)) = false ->
  exists st',
    loadFromCsv env st = (Return (parse_csv content), st') /\
    embeddings (this st') = parse_csv content /\
    embeddings_cache (mmkv (outside st')) = Some (Stringified (parse_csv content)).
Proof.
  destruct st as [[off ini embs] [m f so fo rq cr tr]]. cbn.
  intros C F S.
  unfold_ops. cbn.
  destruct (Platform_OS_web env); cbn; rewrite ?F, C; cbn; rewrite ?F; cbn;
    rewrite S; cbn; (eexists; split; [reflexivity|]; cbn; auto).
Qed.

Lemma parse_rows_blank (r : string) : blank r = true -> parse_rows [r] = [].
Proof.
  intros H. cbn [parse_rows]. now rewrite (trim_blank r H).
Qed.

Lemma parse_rows_no_comma (r : string) : no_comma r = true -> parse_rows [r] = [].
Proof.
  intros H. cbn [parse_rows]. rewrite (split_first_comma_none r H).
  now destruct (is_empty (trim r)).
Qed.

Lemma parse_rows_comma_last (s : string) :
  no_comma s = true -> parse_rows [(s ++ String comma EmptyString)%string] = [].
Proof.
  intros H. cbn [parse_rows]. rewrite (split_first_comma_last s H).
  now destruct (is_empty (trim _)).
Qed.

Lemma parse_rows_comma_first (rest : string) :
  no_break_first rest = true -> parse_rows [String comma rest] = [].
Proof.
  intros H. cbn [parse_rows].
  destruct (is_empty (trim (String comma rest))); [reflexivity|].
  cbn [split_first_comma]. rewrite Ascii.eqb_refl.
  destruct rest as [|c rest]; [reflexivity|].
  cbn in H. cbn [dot_plus].
  destruct (isLineTerminator c); [discriminate|]. reflexivity.
Qed.

Lemma parse_rows_kept (skill field tail : string) :
  is_empty skill = false -> no_comma skill = true ->
  is_empty field = false -> one_line field = true ->
  tail = EmptyString \/ (exists t, tail = String CR t) ->
  parse_rows [(skill ++ String comma (field ++ tail))%string] =
    [{| skill := skill;
        embedding := map Number (split space (remove_quotes field)) |}].
Proof.
  intros Hs Hc Hf Hl Ht.
  assert (D : dot_plus (field ++ tail) = field).
  { apply dot_plus_stops; [assumption|].
    destruct Ht as [->|(t & ->)]; reflexivity. }
  cbn [parse_rows].
  rewrite (trim_mark skill (field ++ tail) comma eq_refl).
  rewrite split_first_comma_at by (rewrite ?D; assumption).
  rewrite D, Hs, Hf. reflexivity.
Qed.

Lemma append_nil_r (s : string) : (s ++ EmptyString)%string = s.
Proof.
  induction s as [|c s IH]; cbn; [reflexivity|]. now rewrite IH.
Qed.

Lemma append_assoc (a b c : string) : ((a ++ b) ++ c = a ++ (b ++ c))%string.
Proof.
  induction a as [|x a IH]; cbn; [reflexivity|]. now rewrite IH.
Qed.

Lemma token_has_no_space (t : string) :
  all_chars (fun c => negb (isWhiteSpace c)) t = true ->
  occurrences space t = 0%nat.
Proof.
  induction t as [|c t IH]; cbn; [reflexivity|].
  intros H. apply andb_prop in H. destruct H as [Hc Ht].
  destruct (Ascii.eqb c space) eqn:E.
  - apply Ascii.eqb_eq in E. subst c. discriminate.
  - now apply IH.
Qed.

Lemma split_whole (sep : ascii) (t : string) :
  occurrences sep t = 0%nat -> split sep t = [t].
Proof.
  induction t as [|c t IH]; cbn; [reflexivity|].
  destruct (Ascii.eqb c sep); [discriminate|].
  intros H. now rewrite (IH H).
Qed.

Lemma split_join_spaces (toks : list string) :
  toks <> [] ->
  Forall (fun t => is_token t = true) toks ->
  split space (join_spaces toks) = toks.
Proof.
  induction toks as [|t toks IH]; [contradiction|].
  intros _ H. inversion H as [|? ? Ht Hrest]; subst.
  unfold is_token in Ht. apply andb_prop in Ht. destruct Ht as [_ Ht].
  apply token_has_no_space in Ht.
  destruct toks as [|t' toks].
  - now apply split_whole.
  - change (join_spaces (t :: t' :: toks))
      with (t ++ String space (join_spaces (t' :: toks)))%string.
    rewrite (split_first_piece space _ _ Ht).
    rewrite IH; [reflexivity | discriminate | assumption].
Qed.

Lemma whitespace_tokens_from_token (t cur s : string) :
  all_chars (fun c => negb (isWhiteSpace c)) t = true ->
  whitespace_tokens_from cur (t ++ s) =
    whitespace_tokens_from (cur ++ t) s.
Proof.
  revert cur. induction t as [|c t IH]; intros cur; cbn [append all_chars].
  - now rewrite append_nil_r.
  - intros H. apply andb_prop in H. destruct H as [Hc Ht].
    cbn [whitespace_tokens_from].
    apply negb_true_iff in Hc. rewrite Hc.
    rewrite (IH _ Ht), append_assoc. reflexivity.
Qed.

Lemma whitespace_tokens_join_spaces (toks : list string) :
  toks <> [] ->
  Forall (fun t => is_token t = true) toks ->
  whitespace_tokens (join_spaces toks) = toks.
Proof.
  unfold whitespace_tokens.
  induction toks as [|t toks IH]; [contradiction|].
  intros _ H. inversion H as [|? ? Ht Hrest]; subst.
  unfold is_token in Ht. apply andb_prop in Ht. destruct Ht as [He Ht].
  apply negb_true_iff in He.
  destruct toks as [|t' toks].
  - cbn [join_spaces].
    rewrite <- (append_nil_r t) at 1.
    rewrite (whitespace_tokens_from_token t _ _ Ht). cbn. now rewrite He.
  - change (join_spaces (t :: t' :: toks))
      with (t ++ String space (join_spaces (t' :: toks)))%string.
    rewrite (whitespace_tokens_from_token t _ _ Ht).
    cbn [append whitespace_tokens_from].
    change (isWhiteSpace space) with true. cbn iota. rewrite He.
    rewrite IH; [reflexivity | discriminate | assumption].
Qed.

(** C6 as worded fails on the count: with two spaces between two
    numbers the vector has three components, one for the empty piece between
    the spaces, where the field has two white-space-separated tokens. *)
Lemma vector_length_is_not_the_token_count :
  parse_csv (line "Skill,Embedding" ++ "Sneak," ++ quoted "0.1  0.2") =
    [{| skill := "Sneak";
        embedding := [Number "0.1"; Number ""; Number "0.2"] |}] /\
  whitespace_tokens (remove_quotes (quoted "0.1  0.2")) = ["0.1"; "0.2"].
Proof.
  split; reflexivity.
Qed.

(** C6, amended.  [loadFromCsv] never throws, and when the file can be read
    and the cache written it returns and installs [parse_csv] of the
    content.  The reader skips the first line whatever it holds, treats the
    remaining lines one by one, each giving at most one entry, and skips a
    line that is blank, has no comma, ends at its only comma, or starts with
    a comma that no line terminator follows directly.  A line [skill,field]
    whose skill is not empty and has no comma and whose field is not empty
    and has no line terminator, possibly followed by a carriage return and
    more, gives one entry: its skill is the text before the first comma and
    its vector has one number per piece of the quote-stripped field cut at
    every space character, that is one more than the field has spaces.
    When the quote-stripped field is made of one or more tokens (not empty,
    free of white space) joined by single spaces, these pieces are exactly
    its white-space-separated tokens.  The line
    Sneak,(quote)0.1 0.2 0.3(quote) gives skill Sneak and the vector of
    0.1, 0.2 and 0.3. *)
Theorem loadFromCsv_reader :
  (forall env st, exists l st', loadFromCsv env st = (Return l, st')) /\
  (forall env st content,
      csv_file (outside st) = Some content ->
      (forall i, file_throws env i = false) ->
      set_throws env "@embeddings_cache" (storage_ops (outside st)) = false ->
      exists st',
        loadFromCsv env st = (Return (parse_csv content), st') /\
        embeddings (this st') = parse_csv content) /\
  (forall header body,
      occurrences LF header = 0%nat ->
      parse_csv (header ++ String LF body) = parse_rows (split LF body)) /\
  (forall rows1 rows2,
      parse_rows (rows1 ++ rows2) = parse_rows rows1 ++ parse_rows rows2) /\
  (forall r, (length (parse_rows [r]) <= 1)%nat) /\
  (forall r, blank r = true -> parse_rows [r] = []) /\
  (forall r, no_comma r = true -> parse_rows [r] = []) /\
  (forall s, no_comma s = true ->
      parse_rows [(s ++ String comma EmptyString)%string] = []) /\
  (forall rest,
      no_break_first rest = true -> parse_rows [String comma rest] = []) /\
  (forall skill field tail,
      is_empty skill = false -> no_comma skill = true ->
      is_empty field = false -> one_line field = true ->
      tail = EmptyString \/ (exists t, tail = String CR t) ->
      parse_rows [(skill ++ String comma (field ++ tail))%string] =
        [{| skill := skill;
            embedding := map Number (split space (remove_quotes field)) |}] /\
      length (map Number (split space (remove_quotes field))) =
        S (occurrences space field)) /\
  (forall field toks,
      toks <> [] ->
      Forall (fun t => is_token t = true) toks ->
      remove_quotes field = join_spaces toks ->
      split space (remove_quotes field) = toks /\
      whitespace_tokens (remove_quotes field) = toks) /\
  parse_csv (line "Skill,Embedding" ++ line ("Sneak," ++ quoted "0.1 0.2 0.3")) =
    [{| skill := "Sneak";
        embedding := [Number "0.1"; Number "0.2"; Number "0.3"] |}].
Proof.
  split; [exact loadFromCsv_returns|].
  split.
  { intros env st content C F S.
    destruct (loadFromCsv_reads env st content C F S) as (st' & E & H & _).
    eauto. }
  split.
  { intros header body H. unfold parse_csv.
    now rewrite (split_first_piece LF header body H). }
  split; [exact parse_rows_app|].
  split; [exact parse_rows_one|].
  split; [exact parse_rows_blank|].
  split; [exact parse_rows_no_comma|].
  split; [exact parse_rows_comma_last|].
  split; [exact parse_rows_comma_first|].
  split.
  { intros skill field tail Hs Hc Hf Hl Ht.
    split; [now apply parse_rows_kept|].
    now rewrite length_map, split_length, remove_quotes_spaces. }
  split; [|reflexivity].
  intros field toks Hne Htok ->.
  split; [now apply split_join_spaces | now apply whitespace_tokens_join_spaces].
Qed.


(** * Further properties of the service *)

(** ** [getLastSyncTime] *)

(** X1.  [getLastSyncTime()] reads back what a sync recorded: after a pull
    that brought rows and whose timestamp write went through, it returns
    the clock reading the pull took; after a pull that failed it returns
    what it would have returned before, the store not having been touched. *)
Theorem getLastSyncTime_after_sync (env : environment) (st : state) :
  (forall rows,
      select_reply env (remote_queries (outside st)) = Resolved (Some rows) None ->
      rows <> [] ->
      set_throws env "@embeddings_last_sync" (storage_ops (outside st)) = false ->
      getString_throws env "@embeddings_last_sync"
        (storage_ops (outside (snd (syncFromCloud env st)))) = false ->
      fst (getLastSyncTime env (snd (syncFromCloud env st))) =
        Return (Some (Date_now env (clock_reads (outside st))))) /\
  (select_reply env (remote_queries (outside st)) = Rejected \/
   (exists data e,
       select_reply env (remote_queries (outside st)) = Resolved data (Some e)) ->
   fst (getLastSyncTime env (snd (syncFromCloud env st))) =
     fst (getLastSyncTime env st)).
Proof.
  split.
  - intros rows H Hne F R.
    destruct (syncFromCloud_records_time env st rows H Hne F) as (T & _).
    destruct (snd (syncFromCloud env st)) as [s [m f so fo rq cr tr]].
    cbn in *. unfold_ops. cbn. rewrite R, T. reflexivity.
  - destruct st as [[off ini embs] [m f so fo rq cr tr]]. cbn.
    intros [H|(data & e & H)]; unfold_ops; cbn; rewrite H; cbn;
      (destruct (getString_throws env "@embeddings_last_sync" so);
       [reflexivity | destruct (last_sync m) as [[t| |]|]; reflexivity]).
Qed.

(** ** [getEmbeddingBySkill] *)

(** X2.  [getEmbeddingBySkill(name)] leaves the state as [getEmbeddings()]
    does and passes its failure on; otherwise it returns the first entry of
    the returned set whose skill is exactly [name], even when later entries
    carry the same skill, and nothing when no entry does. *)
Theorem getEmbeddingBySkill_first_match
    (env : environment) (st : state) (name : string) :
  match getEmbeddings env st with
  | (Return l, st') =>
      exists r,
        getEmbeddingBySkill env name st = (Return r, st') /\
        (forall pre e post,
            l = pre ++ e :: post -> skill e = name ->
            (forall x, In x pre -> skill x <> name) -> r = Some e) /\
        ((forall x, In x l -> skill x <> name) <-> r = None) /\
        (forall e, r = Some e -> In e l /\ skill e = name)
  | (Throw e, st') => getEmbeddingBySkill env name st = (Throw e, st')
  end.
Proof.
  unfold getEmbeddingBySkill, bind, ret.
  destruct (getEmbeddings env st) as [[l|e] st']; [|reflexivity].
  eexists. split; [reflexivity|].
  remember (fun item => (skill item =? name)%string) as p.
  assert (P : forall x, p x = true <-> skill x = name)
    by (intros x; subst p; apply String.eqb_eq).
  split; [|split].
  - intros pre e post -> He Hpre.
    induction pre as [|x pre IH]; cbn.
    + apply P in He. now rewrite He.
    + destruct (p x) eqn:Hx.
      * apply P in Hx. exfalso. apply (Hpre x); [now left|assumption].
      * apply IH. intros y Hy. apply Hpre. now right.
  - split.
    + intros H. destruct (find p l) as [e|] eqn:F; [|reflexivity].
      apply find_some in F. destruct F as [Hin Hp].
      apply P in Hp. exfalso. now apply (H e).
    + intros F x Hin Hx. apply P in Hx.
      now rewrite (find_none p l F x Hin) in Hx.
  - intros e F. apply find_some in F. destruct F as [Hin Hp].
    apply P in Hp. auto.
Qed.

(** ** [initialize] *)

(** X3.  [initialize()] is a one-time setup: once it has returned, a further
    call returns at once and touches nothing, not even the store; and when
    it fails, in the read or the decoding of the offline flag, it leaves the
    object as it was, uninitialized if it was, so that the next call tries
    again. *)
Theorem initialize_once (env : environment) (st : state) :
  match initialize env st with
  | (Return _, st') =>
      initialized (this st') = true /\
      initialize env st' = (Return tt, st')
  | (Throw _, st') =>
      this st' = this st /\ mmkv (outside st') = mmkv (outside st)
  end.
Proof.
  destruct st as [[off ini embs] [m f so fo rq cr tr]].
  unfold initialize, parse_or, JSON_parse, mmkvStorage_getString,
    set_isOfflineMode, set_initialized, get, bind, ret, throw, with_world. cbn.
  destruct ini; cbn; [auto|].
  destruct (getString_throws env "@embeddings_offline_mode" so); cbn; [auto|].
  destruct (offline_mode m) as [[b| |]|]; cbn; auto;
    use_loadCached env; auto.
Qed.

(** X4.  The offline preference survives a restart: when
    [setOfflineMode(flag)] has completed, a newly constructed service over
    the same store has, once its [initialize()] has read the flag, the mode
    [flag]. *)
Theorem offline_preference_survives_restart
    (env : environment) (st st1 : state) (flag : bool) :
  setOfflineMode env flag st = (Return tt, st1) ->
  getString_throws env "@embeddings_offline_mode"
    (storage_ops (outside st1)) = false ->
  let restarted := {| this := constructor; outside := outside st1 |} in
  fst (initialize env restarted) = Return tt /\
  getOfflineMode (this (snd (initialize env restarted))) = flag.
Proof.
  destruct st as [[off ini embs] [m f so fo rq cr tr]].
  unfold setOfflineMode, JSON_stringify, mmkvStorage_set, set_isOfflineMode,
    bind, with_world. cbn.
  destruct (set_throws env "@embeddings_offline_mode" so); [discriminate|].
  intros [= <-]. cbn. intros F.
  unfold initialize, parse_or, JSON_parse, mmkvStorage_getString,
    set_isOfflineMode, set_initialized, get, bind, ret, throw, with_world. cbn.
  rewrite F. cbn.
  use_loadCached env. auto.
Qed.

Lemma offline_preference_survives_restart_witness :
  fst (initialize calm
         {| this := constructor;
            outside := outside (snd (setOfflineMode calm true fresh)) |}) =
    Return tt /\
  getOfflineMode
    (this (snd (initialize calm
                  {| this := constructor;
                     outside := outside (snd (setOfflineMode calm true fresh)) |}))) =
    true.
Proof.
  apply (offline_preference_survives_restart calm fresh
           (snd (setOfflineMode calm true fresh)) true); reflexivity.
Defined.

Lemma getLastSyncTime_after_sync_witness :
  fst (getLastSyncTime calm (snd (syncFromCloud calm (loaded no_storage)))) =
    Return (Some 1700000000000%Z) /\
  fst (getLastSyncTime unreachable
         (snd (syncFromCloud unreachable (loaded no_storage)))) =
    fst (getLastSyncTime unreachable (loaded no_storage)).
Proof.
  split.
  - apply (proj1 (getLastSyncTime_after_sync calm (loaded no_storage))
             [Fireball_row]); [reflexivity | discriminate | reflexivity | reflexivity].
  - apply (proj2 (getLastSyncTime_after_sync unreachable (loaded no_storage))).
    right. exists None, "Network request failed". reflexivity.
Defined.

(** ** The loaders *)

(** X5.  A cache that cannot be read, or that holds a text that is not
    JSON, makes [loadCachedEmbeddings()] return the empty set without
    falling back to the bundled file: the in-memory set, the store and the
    file system are left as they were. *)
Theorem loadCachedEmbeddings_unreadable_cache (env : environment) (st : state) :
  getString_throws env "@embeddings_cache" (storage_ops (outside st)) = true \/
  embeddings_cache (mmkv (outside st)) = Some Malformed ->
  exists st',
    loadCachedEmbeddings env st = (Return [], st') /\
    this st' = this st /\
    mmkv (outside st') = mmkv (outside st) /\
    csv_file (outside st') = csv_file (outside st) /\
    file_ops (outside st') = file_ops (outside st).
Proof.
  destruct st as [[off ini embs] [m f so fo rq cr tr]]. cbn.
  intros H. unfold_ops. cbn.
  destruct (getString_throws env "@embeddings_cache" so) eqn:F; cbn.
  - eexists. split; [reflexivity|]. cbn. auto.
  - destruct H as [H|H]; [discriminate|]. rewrite H. cbn.
    eexists. split; [reflexivity|]. cbn. auto.
Qed.

Lemma loadCachedEmbeddings_unreadable_cache_witness :
  exists st',
    loadCachedEmbeddings calm (loaded corrupted_cache) = (Return [], st') /\
    this st' = this (loaded corrupted_cache) /\
    mmkv (outside st') = corrupted_cache /\
    csv_file (outside st') = None /\
    file_ops (outside st') = 0%nat.
Proof.
  apply (loadCachedEmbeddings_unreadable_cache calm (loaded corrupted_cache)).
  right. reflexivity.
Defined.

(** X6.  Read-through, then hit.  With no cache yet (the key absent or
    empty), a readable bundled file and a store that takes the write,
    [loadCachedEmbeddings()] returns and installs the parsed file and
    caches it; the next [loadCachedEmbeddings()] is served by the cache: it
    touches no file and returns a set with the same skills and vector
    lengths. *)
Theorem loadCachedEmbeddings_read_through
    (env : environment) (st : state) (content : string) :
  truthy (embeddings_cache (mmkv (outside st))) = false ->
  csv_file (outside st) = Some content ->
  (forall i, file_throws env i = false) ->
  (forall i, getString_throws env "@embeddings_cache" i = false) ->
  set_throws env "@embeddings_cache" (S (storage_ops (outside st))) = false ->
  let st1 := snd (loadCachedEmbeddings env st) in
  let st2 := snd (loadCachedEmbeddings env st1) in
  fst (loadCachedEmbeddings env st) = Return (parse_csv content) /\
  embeddings (this st1) = parse_csv content /\
  embeddings_cache (mmkv (outside st1)) = Some (Stringified (parse_csv content)) /\
  (exists l2,
      fst (loadCachedEmbeddings env st1) = Return l2 /\
      embeddings (this st2) = l2 /\
      outline l2 = outline (parse_csv content)) /\
  file_ops (outside st2) = file_ops (outside st1) /\
  csv_file (outside st2) = csv_file (outside st1).
Proof.
  destruct st as [[off ini embs] [m f so fo rq cr tr]]. cbn.
  intros T C F G S.
  unfold_ops. cbn. rewrite G.
  cbn. rewrite C.
  destruct (Platform_OS_web env); cbn;
    destruct (embeddings_cache m) as [[c| |]|]; cbn in T; try discriminate;
    cbn; rewrite ?F; cbn; rewrite ?F; cbn; rewrite S; cbn; rewrite G; cbn;
    (repeat split; eauto).
Qed.

Lemma loadCachedEmbeddings_read_through_witness :
  fst (loadCachedEmbeddings calm fresh_with_csv) = Return [Sneak] /\
  embeddings (this (snd (loadCachedEmbeddings calm fresh_with_csv))) = [Sneak] /\
  fst (loadCachedEmbeddings calm (snd (loadCachedEmbeddings calm fresh_with_csv))) =
    Return [Sneak].
Proof.
  destruct (loadCachedEmbeddings_read_through calm fresh_with_csv bundled
              eq_refl eq_refl (fun _ => eq_refl) (fun _ => eq_refl) eq_refl)
    as (H1 & H2 & _).
  split; [exact H1|]. split; [exact H2|]. reflexivity.
Defined.

(** X7.  On a native platform with no bundled file in the document
    directory, [loadFromCsv()] creates the file with the header line alone,
    reads it back and so returns, installs and caches the empty set,
    whatever set was in memory. *)
Theorem loadFromCsv_creates_missing_file (env : environment) (st : state) :
  Platform_OS_web env = false ->
  csv_file (outside st) = None ->
  (forall i, file_throws env i = false) ->
  set_throws env "@embeddings_cache" (storage_ops (outside st)) = false ->
  exists st',
    loadFromCsv env st = (Return [], st') /\
    csv_file (outside st') = Some (line "Skill,Embedding") /\
    embeddings (this st') = [] /\
    embeddings_cache (mmkv (outside st')) = Some (Stringified []) /\
    added st st' [MmkvSet "@embeddings_cache"; FsRead; FsWrite; FsGetInfo].
Proof.
  destruct st as [[off ini embs] [m f so fo rq cr tr]]. cbn.
  intros W C F S. subst f.
  unfold_ops. cbn. rewrite W. cbn. repeat (rewrite F; cbn).
  change (parse_csv (line "Skill,Embedding")) with (@nil SkillEmbedding).
  rewrite S. cbn.
  eexists. split; [reflexivity|]. cbn. repeat split.
Qed.

Lemma loadFromCsv_creates_missing_file_witness :
  exists st',
    loadFromCsv calm (loaded no_storage) = (Return [], st') /\
    csv_file (outside st') = Some (line "Skill,Embedding") /\
    embeddings (this st') = [] /\
    embeddings_cache (mmkv (outside st')) = Some (Stringified []) /\
    added (loaded no_storage) st'
      [MmkvSet "@embeddings_cache"; FsRead; FsWrite; FsGetInfo].
Proof.
  apply (loadFromCsv_creates_missing_file calm (loaded no_storage));
    reflexivity.
Defined.

(** X8.  When the first file operation of [loadFromCsv()] fails, or when on
    the web there is no file to read, it returns the empty set and leaves
    the in-memory set, the store and the file as they were. *)
Theorem loadFromCsv_unreadable_file (env : environment) (st : state) :
  file_throws env (file_ops (outside st)) = true \/
  (Platform_OS_web env = true /\ csv_file (outside st) = None) ->
  exists st',
    loadFromCsv env st = (Return [], st') /\
    this st' = this st /\
    mmkv (outside st') = mmkv (outside st) /\
    csv_file (outside st') = csv_file (outside st).
Proof.
  destruct st as [[off ini embs] [m f so fo rq cr tr]]. cbn.
  intros H. unfold_ops. cbn.
  destruct (Platform_OS_web env) eqn:W; cbn;
    destruct (file_throws env fo) eqn:F; cbn;
    try (eexists; split; [reflexivity|]; cbn; now auto).
  - destruct H as [H|[_ H]]; [discriminate|]. subst f. cbn.
    eexists; split; [reflexivity|]; cbn; auto.
  - destruct H as [H|[H _]]; discriminate.
Qed.

Lemma loadFromCsv_unreadable_file_witness :
  exists st',
    loadFromCsv no_files (loaded no_storage) = (Return [], st') /\
    this st' = this (loaded no_storage) /\
    mmkv (outside st') = no_storage /\
    csv_file (outside st') = None.
Proof.
  apply (loadFromCsv_unreadable_file no_files (loaded no_storage)).
  left. reflexivity.
Defined.

(** X9.  When the bundled file is read but the cache write fails,
    [loadFromCsv()] returns the empty set although it has already replaced
    the in-memory set by the parsed file: what it returns is then not what
    it leaves in memory. *)
Theorem loadFromCsv_cache_write_fails
    (env : environment) (st : state) (content : string) :
  csv_file (outside st) = Some content ->
  (forall i, file_throws env i = false) ->
  set_throws env "@embeddings_cache" (storage_ops (outside st)) = true ->
  exists st',
    loadFromCsv env st = (Return [], st') /\
    embeddings (this st') = parse_csv content /\
    mmkv (outside st') = mmkv (outside st).
Proof.
  destruct st as [[off ini embs] [m f so fo rq cr tr]]. cbn.
  intros C F S.
  unfold_ops. cbn.
  destruct (Platform_OS_web env); cbn; rewrite ?F, C; cbn; rewrite ?F; cbn;
    rewrite S; cbn; (eexists; split; [reflexivity|]; cbn; auto).
Qed.

Lemma loadFromCsv_cache_write_fails_witness :
  exists st',
    loadFromCsv read_only_store fresh_with_csv = (Return [], st') /\
    embeddings (this st') = parse_csv bundled /\
    mmkv (outside st') = no_storage.
Proof.
  apply (loadFromCsv_cache_write_fails read_only_store fresh_with_csv bundled);
    reflexivity.
Defined.

(** ** [syncFromCloud] *)

(** X10.  When a pull brings rows but the write of the timestamp fails,
    [syncFromCloud()] still returns the mapped rows and keeps them in
    memory, while the store holds nothing new: neither the timestamp nor
    the skill names. *)
Theorem syncFromCloud_timestamp_write_fails
    (env : environment) (st : state) (rows : list row) :
  select_reply env (remote_queries (outside st)) = Resolved (Some rows) None ->
  rows <> [] ->
  set_throws env "@embeddings_last_sync" (storage_ops (outside st)) = true ->
  exists st',
    syncFromCloud env st = (Return (map row_to_entry rows), st') /\
    embeddings (this st') = map row_to_entry rows /\
    mmkv (outside st') = mmkv (outside st) /\
    added st st' [MmkvSet "@embeddings_last_sync"; ClockRead; RemoteSelect].
Proof.
  destruct st as [[off ini embs] [m f so fo rq cr tr]]. cbn.
  intros H Hne F1.
  destruct rows as [|r rows]; [contradiction|].
  unfold_ops; cbn. rewrite H. cbn. rewrite F1. cbn.
  eexists. split; [reflexivity|]. cbn. repeat split.
Qed.

Lemma syncFromCloud_timestamp_write_fails_witness :
  exists st',
    syncFromCloud read_only_store (loaded no_storage) =
      (Return (map row_to_entry [Fireball_row]), st') /\
    embeddings (this st') = map row_to_entry [Fireball_row] /\
    mmkv (outside st') = no_storage /\
    added (loaded no_storage) st'
      [MmkvSet "@embeddings_last_sync"; ClockRead; RemoteSelect].
Proof.
  apply (syncFromCloud_timestamp_write_fails read_only_store
           (loaded no_storage) [Fireball_row]);
    [reflexivity | discriminate | reflexivity].
Defined.

(** ** [getEmbeddings] *)

(** X11.  An initialized service in offline mode that holds a set answers
    [getEmbeddings()] from memory alone: it returns the set and performs no
    operation on the store, the files, the clock or the remote side. *)
Theorem getEmbeddings_offline_from_memory (env : environment) (st : state) :
  initialized (this st) = true ->
  isOfflineMode (this st) = true ->
  embeddings (this st) <> [] ->
  getEmbeddings env st = (Return (embeddings (this st)), st).
Proof.
  destruct st as [[off ini embs] w]. cbn. intros -> -> H.
  destruct embs as [|e embs]; [contradiction|].
  reflexivity.
Qed.

Lemma getEmbeddings_offline_from_memory_witness :
  getEmbeddings hostile offline_loaded = (Return [Sneak], offline_loaded).
Proof.
  apply (getEmbeddings_offline_from_memory hostile offline_loaded);
    [reflexivity | reflexivity | discriminate].
Defined.

(** The second half of [getEmbeddings] never touches the offline-mode key
    and issues at most one remote query. *)
Lemma refresh_frame (env : environment) (st : state) :
  offline_mode (mmkv (outside (snd (refresh env st)))) =
    offline_mode (mmkv (outside st)) /\
  (remote_queries (outside (snd (refresh env st))) <=
     S (remote_queries (outside st)))%nat.
Proof.
  destruct st as [[off ini embs] [m f so fo rq cr tr]].
  unfold refresh, parse_or, JSON_parse, mmkvStorage_getString, Date_now_,
    get, bind, ret, throw, with_world. cbn -[Z.gtb Z.sub].
  destruct off; cbn -[Z.gtb Z.sub]; [auto|].
  destruct (getString_throws env "@embeddings_last_sync" so); cbn; [auto|].
  destruct (last_sync m) as [[t'| |]|]; cbn -[Z.gtb Z.sub]; auto;
    match goal with |- context [(?x >? ?y)%Z] => destruct (x >? y)%Z end;
    cbn; auto;
    match goal with |- context [syncFromCloud env ?s] =>
      destruct (syncFromCloud_frame env s) as (st' & E & _ & _ & Hq & Hf & _);
      rewrite E; cbn in *; rewrite Hq, Hf; auto
    end.
Qed.

(** X12.  Whatever [getEmbeddings()] does and however it ends, on an
    initialized service it keeps the service initialized and in its mode,
    leaves the persisted offline flag alone, and issues at most one remote
    query. *)
Theorem getEmbeddings_keeps_mode (env : environment) (st : state) :
  initialized (this st) = true ->
  let st' := snd (getEmbeddings env st) in
  initialized (this st') = true /\
  isOfflineMode (this st') = isOfflineMode (this st) /\
  offline_mode (mmkv (outside st')) = offline_mode (mmkv (outside st)) /\
  (remote_queries (outside st') <= S (remote_queries (outside st)))%nat.
Proof.
  intros Hi. cbn zeta.
  assert (E0 : exists st0,
             ensure_loaded env st = (Return tt, st0) /\
             initialized (this st0) = true /\
             isOfflineMode (this st0) = isOfflineMode (this st) /\
             offline_mode (mmkv (outside st0)) = offline_mode (mmkv (outside st)) /\
             remote_queries (outside st0) = remote_queries (outside st)).
  { destruct st as [[off ini embs] [m f so fo rq cr tr]]. cbn in Hi. subst ini.
    unfold ensure_loaded, initialize, get, bind, ret. cbn.
    destruct embs as [|e embs]; cbn.
    - use_loadCached env. eexists. split; [reflexivity|]. auto.
    - eexists. split; [reflexivity|]. cbn. auto. }
  destruct E0 as (st0 & E0 & Hi0 & Ho0 & Hf0 & Hq0).
  assert (E : getEmbeddings env st = refresh env st0)
    by (rewrite getEmbeddings_split; unfold bind at 1; now rewrite E0).
  rewrite E.
  destruct (refresh_flags env st0) as (Ho1 & Hi1).
  destruct (refresh_frame env st0) as (Hf1 & Hq1).
  split; [congruence|]. split; [congruence|]. split; [congruence|].
  now rewrite Hq0 in Hq1.
Qed.

Lemma getEmbeddings_keeps_mode_witness :
  initialized (this (snd (getEmbeddings calm (loaded no_storage)))) = true /\
  isOfflineMode (this (snd (getEmbeddings calm (loaded no_storage)))) = false /\
  offline_mode (mmkv (outside (snd (getEmbeddings calm (loaded no_storage))))) =
    None /\
  (remote_queries (outside (snd (getEmbeddings calm (loaded no_storage)))) <= 1)%nat.
Proof.
  apply (getEmbeddings_keeps_mode calm (loaded no_storage)). reflexivity.
Defined.

(** With no cache yet, [loadCachedEmbeddings] reads the bundled file. *)
Lemma loadCachedEmbeddings_reads_file
    (env : environment) (st : state) (content : string) :
  truthy (embeddings_cache (mmkv (outside st))) = false ->
  csv_file (outside st) = Some content ->
  (forall i, file_throws env i = false) ->
  getString_throws env "@embeddings_cache" (storage_ops (outside st)) = false ->
  set_throws env "@embeddings_cache" (S (storage_ops (outside st))) = false ->
  exists st1,
    loadCachedEmbeddings env st = (Return (parse_csv content), st1) /\
    this st1 = {| isOfflineMode := isOfflineMode (this st);
                  initialized := initialized (this st);
                  embeddings := parse_csv content |} /\
    mmkv (outside st1) =
      update EMBEDDINGS_CACHE_KEY (Stringified (parse_csv content))
        (mmkv (outside st)) /\
    remote_queries (outside st1) = remote_queries (outside st).
Proof.
  destruct st as [[off ini embs] [[ls om ec sn] f so fo rq cr tr]]. cbn.
  intros T C F G W. subst f.
  unfold_ops. cbn. rewrite G. cbn.
  destruct (Platform_OS_web env); cbn;
    destruct ec as [[c| |]|]; cbn in T; try discriminate;
    cbn; repeat (rewrite F; cbn); rewrite W; cbn;
    (eexists; split; [reflexivity|]; cbn; auto).
Qed.

(** A pull that fails or brings no row returns the set in memory and
    leaves the object and the store as they were. *)
Lemma syncFromCloud_barren (env : environment) (st : state) :
  (select_reply env (remote_queries (outside st)) = Rejected \/
   (exists data e,
       select_reply env (remote_queries (outside st)) = Resolved data (Some e)) \/
   select_reply env (remote_queries (outside st)) = Resolved (Some []) None \/
   select_reply env (remote_queries (outside st)) = Resolved None None) ->
  exists st',
    syncFromCloud env st = (Return (embeddings (this st)), st') /\
    this st' = this st /\
    mmkv (outside st') = mmkv (outside st).
Proof.
  destruct st as [[off ini embs] [m f so fo rq cr tr]]. cbn.
  intros [H|[(data & e & H)|[H|H]]]; unfold_ops; cbn; rewrite H; cbn;
    eexists; split; try reflexivity; cbn; auto.
Qed.

(** X13.  Cold start without network.  A service that is not yet
    initialized, over a store with no cache and an online preference, with
    a readable bundled file that yields at least one entry, returns from
    [getEmbeddings()] the parsed bundled file when the remote pull fails or
    brings nothing; the set is then in memory and in the cache. *)
Theorem getEmbeddings_falls_back_to_bundled_file
    (env : environment) (st : state) (content : string) (t : Z) :
  initialized (this st) = false ->
  (forall k i, getString_throws env k i = false) ->
  (forall i, set_throws env "@embeddings_cache" i = false) ->
  (forall i, file_throws env i = false) ->
  persisted_flag (mmkv (outside st)) = Some false ->
  persisted_last_sync (mmkv (outside st)) = Some t ->
  truthy (embeddings_cache (mmkv (outside st))) = false ->
  csv_file (outside st) = Some content ->
  parse_csv content <> [] ->
  (select_reply env (remote_queries (outside st)) = Rejected \/
   (exists data e,
       select_reply env (remote_queries (outside st)) = Resolved data (Some e)) \/
   select_reply env (remote_queries (outside st)) = Resolved (Some []) None \/
   select_reply env (remote_queries (outside st)) = Resolved None None) ->
  exists st',
    getEmbeddings env st = (Return (parse_csv content), st') /\
    embeddings (this st') = parse_csv content /\
    initialized (this st') = true /\
    embeddings_cache (mmkv (outside st')) = Some (Stringified (parse_csv content)).
Proof.
  intros Hi G Hset F Pf Pl T C Hne Hreply.
  assert (E0 : exists st0,
             ensure_loaded env st = (Return tt, st0) /\
             this st0 = {| isOfflineMode := false; initialized := true;
                           embeddings := parse_csv content |} /\
             mmkv (outside st0) =
               update EMBEDDINGS_CACHE_KEY (Stringified (parse_csv content))
                 (mmkv (outside st)) /\
             remote_queries (outside st0) = remote_queries (outside st)).
  { destruct st as [[off ini embs] [[ls om ec sn] f so fo rq cr tr]].
    unfold persisted_flag in Pf. cbn in *. subst ini f.
    unfold ensure_loaded, initialize, parse_or, JSON_parse,
      mmkvStorage_getString, set_isOfflineMode, set_initialized, get, bind,
      ret, throw, with_world. cbn.
    rewrite G.
    destruct om as [[[|]| |]|]; cbn in Pf; try discriminate; cbn;
      match goal with
      | |- context [loadCachedEmbeddings env ?s] =>
          destruct (loadCachedEmbeddings_reads_file env s content)
            as (st1 & E1 & H1 & H2 & H3); cbn; auto;
          rewrite E1; cbn; rewrite H1; cbn
      end;
      (destruct (parse_csv content) as [|e0 l0] eqn:Hp; [contradiction|]);
      cbn; (eexists; split; [reflexivity|]); cbn;
      rewrite ?H1, ?H2, ?H3; cbn; auto. }
  destruct E0 as (st0 & E0 & Hthis & Hm & Hq).
  rewrite getEmbeddings_split. unfold bind at 1. rewrite E0.
  assert (Pl0 : persisted_last_sync (mmkv (outside st0)) = Some t)
    by (rewrite Hm; exact Pl).
  rewrite (refresh_online env st0 t); [| now rewrite Hthis | apply G | exact Pl0].
  destruct (_ >? ONE_HOUR)%Z.
  - destruct (syncFromCloud_barren env (checked st0)) as (st' & E & Ht & Hm').
    { cbn. now rewrite Hq. }
    exists st'. cbn in Ht, Hm'. rewrite E. cbn.
    rewrite Ht, Hm', Hthis, Hm. cbn. auto.
  - exists (checked st0). cbn. rewrite Hthis, Hm. cbn. auto.
Qed.

Lemma getEmbeddings_falls_back_to_bundled_file_witness :
  exists st',
    getEmbeddings unreachable fresh_with_csv = (Return (parse_csv bundled), st') /\
    embeddings (this st') = parse_csv bundled /\
    initialized (this st') = true /\
    embeddings_cache (mmkv (outside st')) = Some (Stringified (parse_csv bundled)).
Proof.
  apply (getEmbeddings_falls_back_to_bundled_file unreachable fresh_with_csv
           bundled 0%Z);
    try reflexivity; try discriminate.
  right. left. exists None, "Network request failed". reflexivity.
Defined.

(** ** [uploadToCloud] *)

(** X14.  In offline mode [uploadToCloud()] reports failure and does
    nothing at all: no load, no store access, and no use of the remote
    side, whose replies it does not depend on. *)
Theorem uploadToCloud_offline
    (env : environment) (remote : cloud) (st : state) :
  isOfflineMode (this st) = true ->
  uploadToCloud env remote st = (Return false, st).
Proof.
  intros H. unfold uploadToCloud, try_catch, bind, get, ret.
  rewrite H. reflexivity.
Qed.

Lemma uploadToCloud_offline_witness :
  uploadToCloud calm obliging offline_loaded = (Return false, offline_loaded).
Proof.
  apply (uploadToCloud_offline calm obliging offline_loaded). reflexivity.
Defined.

(** X15.  [uploadToCloud()] never throws, keeps the mode flags and the
    persisted offline flag, and its result tells whether the timestamp was
    written: when it returns [true] the service was online, the remote side
    accepted the upsert of the in-memory set in its remote shape, and the
    last-sync key holds the clock reading; when it returns [false] the
    last-sync key is as it was. *)
Theorem uploadToCloud_reports_the_stamp
    (env : environment) (remote : cloud) (st : state) :
  exists b st',
    uploadToCloud env remote st = (Return b, st') /\
    isOfflineMode (this st') = isOfflineMode (this st) /\
    initialized (this st') = initialized (this st) /\
    offline_mode (mmkv (outside st')) = offline_mode (mmkv (outside st)) /\
    if b then
      isOfflineMode (this st) = false /\
      upsert_reply remote (map entry_to_row (embeddings (this st'))) =
        Fulfilled None /\
      last_sync (mmkv (outside st')) =
        Some (Stringified (Date_now env (clock_reads (outside st))))
    else last_sync (mmkv (outside st')) = last_sync (mmkv (outside st)).
Proof.
  destruct st as [[off ini embs] [m f so fo rq cr tr]].
  unfold uploadToCloud, clear_and_upsert, upsert_and_stamp, await, try_catch,
    bind, ret, get, Date_now_, mmkvStorage_set, JSON_stringify, with_world.
  cbn.
  destruct off; cbn.
  { eexists _, _. split; [reflexivity|]. cbn. auto. }
  destruct embs as [|e0 embs]; cbn; [use_loadCached env|];
    destruct (getSession_reply remote) as [[|]|]; cbn;
    try destruct (signInAnonymously_reply remote) as [[se|]|]; cbn;
    try destruct (delete_reply remote) as [[de|]|]; cbn;
    try destruct (permission_error de); cbn;
    try match goal with
        | |- context [upsert_reply remote ?p] =>
            destruct (upsert_reply remote p) as [[ue|]|] eqn:U; cbn
        end;
    try match goal with
        | |- context [set_throws env ?k ?n] =>
            destruct (set_throws env k n); cbn
        end;
    eexists _, _; (split; [reflexivity|]); cbn;
    repeat split; auto; congruence.
Qed.

Lemma prefix_append (a b : string) : String.prefix a (a ++ b) = true.
Proof.
  induction a as [|c a IH]; cbn; [now destruct b|].
  destruct (ascii_dec c c); [exact IH|contradiction].
Qed.

Lemma includes_infix (needle pre post : string) :
  includes needle (pre ++ needle ++ post) = true.
Proof.
  induction pre as [|c pre IH]; cbn [append].
  - destruct (needle ++ post)%string eqn:E; cbn [includes];
      rewrite <- E, prefix_append; reflexivity.
  - cbn [includes]. rewrite IH. now destruct (String.prefix _ _).
Qed.

Arguments clear_and_upsert : simpl never.

Lemma clear_and_upsert_tolerant
    (env : environment) (remote : cloud) (deleteError : remote_error)
    (dataToUpload : list row) (s : state) :
  delete_reply remote = Fulfilled (Some deleteError) ->
  permission_error deleteError = true ->
  clear_and_upsert env remote dataToUpload s =
    clear_and_upsert env (with_delete remote (Fulfilled None)) dataToUpload s.
Proof.
  intros D P. unfold clear_and_upsert, await, bind. cbn.
  rewrite D, P. reflexivity.
Qed.

(** X16.  A delete that fails for want of permission (code 42501, or a
    message that contains the words permission denied) is passed over:
    [uploadToCloud()] then behaves as if the delete had succeeded.  Any
    other delete error makes it return [false]. *)
Theorem uploadToCloud_tolerates_permission_errors
    (env : environment) (remote : cloud) (st : state) (deleteError : remote_error) :
  delete_reply remote = Fulfilled (Some deleteError) ->
  (code deleteError = Some "42501" \/
   (exists pre post,
       message deleteError = Some (pre ++ "permission denied" ++ post)%string) ->
   uploadToCloud env remote st =
     uploadToCloud env (with_delete remote (Fulfilled None)) st) /\
  (permission_error deleteError = false ->
   fst (uploadToCloud env remote st) = Return false).
Proof.
  intros D. split.
  - intros H.
    assert (P : permission_error deleteError = true).
    { unfold permission_error.
      destruct H as [H|(pre & post & H)]; rewrite H.
      - reflexivity.
      - rewrite includes_infix. apply orb_true_r. }
    destruct st as [[off ini embs] [m f so fo rq cr tr]].
    unfold uploadToCloud, await, try_catch, bind, ret, get. cbn.
    destruct off; cbn; [reflexivity|].
    destruct embs as [|e0 embs]; cbn; [use_loadCached env|];
      destruct (getSession_reply remote) as [[|]|]; cbn;
      try destruct (signInAnonymously_reply remote) as [[se|]|]; cbn;
      try reflexivity;
      now rewrite (clear_and_upsert_tolerant env remote deleteError _ _ D P).
  - intros P.
    destruct st as [[off ini embs] [m f so fo rq cr tr]].
    unfold uploadToCloud, clear_and_upsert, upsert_and_stamp, await, try_catch,
      bind, ret, get. cbn. rewrite D, P.
    destruct off; cbn; [reflexivity|].
    destruct embs as [|e0 embs]; cbn; [use_loadCached env|];
      destruct (getSession_reply remote) as [[|]|]; cbn;
      try destruct (signInAnonymously_reply remote) as [[se|]|]; cbn;
      reflexivity.
Qed.

Lemma uploadToCloud_tolerates_permission_errors_witness :
  uploadToCloud calm (with_delete obliging (Fulfilled (Some row_level_security)))
    (loaded no_storage) =
  uploadToCloud calm
    (with_delete (with_delete obliging (Fulfilled (Some row_level_security)))
       (Fulfilled None))
    (loaded no_storage).
Proof.
  apply (proj1 (uploadToCloud_tolerates_permission_errors calm
                  (with_delete obliging (Fulfilled (Some row_level_security)))
                  (loaded no_storage) row_level_security eq_refl)).
  left. reflexivity.
Defined.

Lemma row_to_entry_to_row (l : list SkillEmbedding) :
  map row_to_entry (map entry_to_row l) = l.
Proof.
  induction l as [|[s v] l IH]; cbn; [reflexivity|].
  now rewrite IH.
Qed.

(** X17.  The two shapes are inverse to each other across an upload and a
    pull: when the remote store answers the query with the rows that
    [uploadToCloud()] builds from a non-empty set, [syncFromCloud()]
    returns and installs exactly that set, whether or not its own store
    writes go through. *)
Theorem upload_then_sync_restores_the_set
    (env : environment) (st : state) (l : list SkillEmbedding) :
  l <> [] ->
  select_reply env (remote_queries (outside st)) =
    Resolved (Some (map entry_to_row l)) None ->
  exists st',
    syncFromCloud env st = (Return l, st') /\
    embeddings (this st') = l.
Proof.
  intros Hne H.
  pose proof (row_to_entry_to_row l) as R.
  destruct st as [[off ini embs] [m f so fo rq cr tr]].
  destruct l as [|e l]; [contradiction|].
  unfold_ops. cbn in *. rewrite H. cbn. rewrite R.
  destruct (set_throws env "@embeddings_last_sync" so); cbn;
    [|destruct (set_throws env "@skill_names_cache" (S so)); cbn];
    eexists; split; reflexivity.
Qed.

Lemma upload_then_sync_restores_the_set_witness :
  exists st',
    syncFromCloud echoing fresh = (Return [Sneak], st') /\
    embeddings (this st') = [Sneak].
Proof.
  apply (upload_then_sync_restores_the_set echoing fresh [Sneak]);
    [discriminate | reflexivity].
Defined.

(** ** The CSV reader, further *)

Lemma split_nonempty (sep : ascii) (s : string) : split sep s <> [].
Proof.
  destruct (split_cons sep s) as (p & r & E). rewrite E. discriminate.
Qed.

(** X18.  Every entry that the reader produces has a non-empty skill and a
    vector of at least one component. *)
Theorem parse_csv_entries_are_filled (content : string) (e : SkillEmbedding) :
  In e (parse_csv content) ->
  skill e <> EmptyString /\ embedding e <> [].
Proof.
  unfold parse_csv. generalize (tl (split LF content)) as rows.
  induction rows as [|r rows IH]; cbn [parse_rows]; [contradiction|].
  destruct (is_empty (trim r)); [exact IH|].
  destruct (split_first_comma r) as [sk [em|]]; [|exact IH].
  destruct (is_empty sk || is_empty em) eqn:B; [exact IH|].
  intros [<-|H]; [|now apply IH].
  apply orb_false_elim in B. destruct B as [B _]. cbn.
  split.
  - intros ->. discriminate.
  - intros E. apply map_eq_nil in E. now apply split_nonempty in E.
Qed.

Lemma parse_csv_entries_are_filled_witness :
  skill Sneak <> EmptyString /\ embedding Sneak <> [].
Proof.
  apply (parse_csv_entries_are_filled bundled Sneak). left. reflexivity.
Defined.

Lemma parse_rows_length (rows : list string) :
  (length (parse_rows rows) <= length rows)%nat.
Proof.
  induction rows as [|r rows IH]; cbn [parse_rows length]; [lia|].
  destruct (is_empty (trim r)); [lia|].
  destruct (split_first_comma r) as [sk [em|]]; [|lia].
  destruct (is_empty sk || is_empty em); cbn [length]; lia.
Qed.

(** X19.  The reader yields at most one entry per line break of the
    content: none for an empty file or a file of a single line (the header
    alone), and never more entries than there are lines after the first. *)
Theorem parse_csv_at_most_one_entry_per_line (content : string) :
  (length (parse_csv content) <= occurrences LF content)%nat.
Proof.
  unfold parse_csv.
  pose proof (split_length LF content) as L.
  pose proof (parse_rows_length (tl (split LF content))) as P.
  destruct (split LF content) as [|h rows]; cbn in *; lia.
Qed.

Lemma all_chars_app (p : ascii -> bool) (a b : string) :
  all_chars p (a ++ b) = all_chars p a && all_chars p b.
Proof.
  induction a as [|c a IH]; cbn; [reflexivity|].
  now rewrite IH, andb_assoc.
Qed.

Lemma not_blank_mark (s : string) :
  blank s = false ->
  exists a c b, s = (a ++ String c b)%string /\ isWhiteSpace c = false.
Proof.
  unfold blank. induction s as [|c s IH]; cbn; [discriminate|].
  destruct (isWhiteSpace c) eqn:W; cbn.
  - intros H. destruct (IH H) as (a & c' & b & -> & W').
    exists (String c a), c', b. auto.
  - intros _. exists EmptyString, c, s. auto.
Qed.

Lemma trim_empty_iff_blank (s : string) : is_empty (trim s) = blank s.
Proof.
  destruct (blank s) eqn:B.
  - now rewrite (trim_blank s B).
  - destruct (not_blank_mark s B) as (a & c & b & -> & W).
    now apply trim_mark.
Qed.

Lemma dot_plus_before_CR (s : string) :
  dot_plus (s ++ String CR EmptyString) = dot_plus s.
Proof.
  induction s as [|c s IH]; cbn; [reflexivity|].
  destruct (isLineTerminator c); [reflexivity|]. now rewrite IH.
Qed.

Lemma split_first_comma_before_CR (r : string) :
  split_first_comma (r ++ String CR EmptyString) =
    match split_first_comma r with
    | (sk, Some em) => (sk, Some em)
    | (sk, None) => ((sk ++ String CR EmptyString)%string, None)
    end.
Proof.
  induction r as [|c r IH]; cbn [append split_first_comma].
  - reflexivity.
  - rewrite dot_plus_before_CR, IH.
    destruct (Ascii.eqb c comma);
      [destruct (dot_plus r); [|reflexivity]|];
      destruct (split_first_comma r) as [sk [em|]]; reflexivity.
Qed.

Lemma parse_rows_CR_head (r : string) (rest : list string) :
  parse_rows ((r ++ String CR EmptyString)%string :: rest) = parse_rows (r :: rest).
Proof.
  cbn [parse_rows].
  rewrite !trim_empty_iff_blank. unfold blank at 1.
  rewrite all_chars_app. fold (blank r).
  change (all_chars isWhiteSpace (String CR EmptyString)) with true.
  rewrite andb_true_r, split_first_comma_before_CR.
  destruct (blank r); [reflexivity|].
  destruct (split_first_comma r) as [sk [em|]]; reflexivity.
Qed.

Lemma parse_rows_head (r : string) (rest rest' : list string) :
  parse_rows rest = parse_rows rest' ->
  parse_rows (r :: rest) = parse_rows (r :: rest').
Proof.
  intros H. cbn [parse_rows]. now rewrite H.
Qed.

Lemma parse_rows_terminated (rows : list string) :
  parse_rows (terminated rows) = parse_rows rows.
Proof.
  induction rows as [|r rows IH]; [reflexivity|].
  destruct rows as [|r' rows]; [reflexivity|].
  change (terminated (r :: r' :: rows))
    with ((r ++ String CR EmptyString)%string :: terminated (r' :: rows)).
  rewrite parse_rows_CR_head. now apply parse_rows_head.
Qed.

Lemma terminated_cons_head (c : ascii) (piece : string) (rest : list string) :
  terminated (String c piece :: rest) =
    match terminated (piece :: rest) with
    | p :: q => String c p :: q
    | [] => [String c EmptyString]
    end.
Proof.
  destruct rest; reflexivity.
Qed.

Lemma split_crlf (s : string) : split LF (crlf s) = terminated (split LF s).
Proof.
  induction s as [|c s IH]; [reflexivity|].
  cbn [crlf split].
  destruct (Ascii.eqb c LF) eqn:E.
  - cbn [split].
    change (Ascii.eqb CR LF) with false. cbn iota.
    rewrite Ascii.eqb_refl, IH.
    destruct (split_cons LF s) as (p & q & S). rewrite S. reflexivity.
  - cbn [split]. rewrite E, IH.
    destruct (split_cons LF s) as (p & q & S). rewrite S.
    rewrite terminated_cons_head.
    destruct (terminated (p :: q)) eqn:T; [|reflexivity].
    destruct q; discriminate.
Qed.

(** X20.  Line ends do not matter: a file saved with CR LF line ends is
    read as the same file with LF line ends, entry for entry. *)
Theorem parse_csv_ignores_carriage_returns (content : string) :
  parse_csv (crlf content) = parse_csv content.
Proof.
  unfold parse_csv. rewrite split_crlf.
  destruct (split LF content) as [|h rows]; [reflexivity|].
  destruct rows as [|r rows]; [reflexivity|].
  change (tl (terminated (h :: r :: rows))) with (terminated (r :: rows)).
  apply parse_rows_terminated.
Qed.

(** * Properties of the weapon-skill handlers *)

Module WeaponSkillsFacts.

Import WeaponSkills.

Local Open Scope Z_scope.

Lemma findIndex_found {A : Type} (p : A -> bool) (l : list A) (i : nat) :
  findIndex p l = Some i ->
  exists x, nth_error l i = Some x /\ p x = true.
Proof.
  revert i. induction l as [|y l IH]; cbn; [discriminate|].
  intros i. destruct (p y) eqn:P.
  - intros [= <-]. exists y. auto.
  - destruct (findIndex p l) as [j|]; [|discriminate].
    intros [= <-]. cbn. now apply IH.
Qed.

Lemma findIndex_assign {A : Type} (p : A -> bool) (l : list A) (i : nat) (v : A) :
  findIndex p l = Some i -> p v = true -> findIndex p (assign i v l) = Some i.
Proof.
  revert i. induction l as [|y l IH]; cbn; [discriminate|].
  intros i. destruct (p y) eqn:P.
  - intros [= <-] Pv. cbn. now rewrite Pv.
  - destruct (findIndex p l) as [j|] eqn:F; [|discriminate].
    intros [= <-] Pv. cbn. rewrite P. now rewrite (IH j eq_refl Pv).
Qed.


Lemma assign_assign {A : Type} (i : nat) (v w : A) (l : list A) :
  assign i w (assign i v l) = assign i w l.
Proof.
  revert i. induction l as [|y l IH]; intros [|i]; cbn; auto.
  now rewrite IH.
Qed.

Lemma assign_same {A : Type} (i : nat) (v : A) (l : list A) :
  nth_error l i = Some v -> assign i v l = l.
Proof.
  revert i. induction l as [|y l IH]; intros [|i]; cbn; try discriminate.
  - now intros [= ->].
  - intros H. now rewrite IH.
Qed.




(** X21.  As long as the build points before and after, and the cost
    charged or refunded, are safe integers, every dispatch of the three
    handlers moves build points between remaining and spent without
    creating or losing any: their sum is what it was, whatever the cost
    functions are. *)
Theorem handlers_conserve_build_points
    (cost total : Z -> Z) (skills : list WeaponSkill) (base : BuildPoints)
    (skill : WeaponSkill) (increase : bool) :
  safe_points base = true ->
  (isSafeInteger (cost 1) = true ->
   safe_points (newPoints (selectWeaponSkill cost skills base skill)) = true ->
   budget (newPoints (selectWeaponSkill cost skills base skill)) = budget base) /\
  (isSafeInteger (total (level skill)) = true ->
   safe_points (newPoints (handleDeleteSkill total skills base skill)) = true ->
   budget (newPoints (handleDeleteSkill total skills base skill)) = budget base) /\
  match handleLevelChange cost skills base skill increase with
  | Some d =>
      isSafeInteger (level skill) = true ->
      isSafeInteger (cost (if increase then level skill + 1 else level skill)) = true ->
      safe_points (newPoints d) = true ->
      budget (newPoints d) = budget base
  | None => True
  end.
Proof.
  intros _. unfold budget, handleLevelChange. cbn.
  split; [intros _ _; lia|]. split; [intros _ _; lia|].
  destruct (findIndex _ skills); [|exact I].
  destruct (_ || _)%bool; [exact I|].
  destruct (increase && _)%bool; [exact I|].
  cbn. intros _ _ _. lia.
Qed.

Lemma handlers_conserve_build_points_witness :
  budget (newPoints (selectWeaponSkill (fun l => 2 * l) [] twenty_points sword)) = 20 /\
  budget (newPoints (handleDeleteSkill (fun l => 2 * l) [sword] twenty_points sword)) = 20.
Proof.
  destruct (handlers_conserve_build_points (fun l => 2 * l) (fun l => 2 * l)
              [] twenty_points sword true eq_refl) as (H1 & _).
  destruct (handlers_conserve_build_points (fun l => 2 * l) (fun l => 2 * l)
              [sword] twenty_points sword true eq_refl) as (_ & H2 & _).
  split; [apply H1 | apply H2]; reflexivity.
Defined.


(** X23.  Raising a level and lowering it again gives the build points
    back: after a dispatched increase of a skill of level at least 1, the
    decrease of the raised skill, run on what the increase dispatched, is
    dispatched too and, the build points before and after the increase and
    the cost of the new level being safe integers, restores the build
    points; it also restores the list when the skill passed was the listed
    one. *)
Theorem raise_then_lower_restores
    (cost : Z -> Z) (skills : list WeaponSkill) (base : BuildPoints)
    (skill : WeaponSkill) (d : Dispatched) :
  1 <= level skill ->
  safe_points base = true ->
  isSafeInteger (cost (level skill + 1)) = true ->
  handleLevelChange cost skills base skill true = Some d ->
  safe_points (newPoints d) = true ->
  let raised := {| id := id skill; level := level skill + 1;
                   weaponHeft := weaponHeft skill;
                   weaponType := weaponType skill |} in
  exists d',
    handleLevelChange cost (updatedSkills d) (newPoints d) raised false = Some d' /\
    buildPointsRemaining (newPoints d') = buildPointsRemaining base /\
    buildPointsSpent (newPoints d') = buildPointsSpent base /\
    (In skill skills -> NoDup (map id skills) -> updatedSkills d' = skills).
Proof.
  intros Hl _ _. unfold handleLevelChange.
  destruct (findIndex _ skills) as [index|] eqn:F; [|discriminate].
  destruct (findIndex_found _ _ _ F) as (x & Hx & Px).
  destruct ((level skill + 1 <? 1) || (level skill + 1 >? 10))%bool eqn:R;
    [discriminate|].
  destruct (true && _)%bool; [discriminate|].
  intros [= <-] _. cbn.
  rewrite (findIndex_assign _ skills index _ F) by (cbn; apply Z.eqb_refl).
  replace (level skill + 1 - 1) with (level skill) by lia.
  assert (R' : ((level skill <? 1) || (level skill >? 10))%bool = false).
  { apply orb_false_elim in R. destruct R as [_ R2].
    rewrite Z.gtb_ltb in *. apply Z.ltb_ge in R2.
    apply orb_false_intro; [apply Z.ltb_ge | apply Z.ltb_ge]; lia. }
  rewrite R'. eexists. split; [reflexivity|]. cbn.
  split; [lia|]. split; [lia|].
  intros Hin Hnd. rewrite assign_assign.
  apply Z.eqb_eq in Px.
  assert (x = skill).
  { apply nth_error_In in Hx.
    clear - Hin Hx Px Hnd.
    induction skills as [|y l IH]; [contradiction|].
    cbn in Hnd. inversion Hnd as [|? ? Hy Hl]; subst.
    destruct Hin as [->|Hin], Hx as [->|Hx]; auto.
    - exfalso. apply Hy. rewrite <- Px. now apply in_map.
    - exfalso. apply Hy. rewrite Px. now apply in_map. }
  subst x. destruct skill as [i lv h k]. cbn.
  now apply assign_same.
Qed.

Lemma raise_then_lower_restores_witness :
  exists d',
    handleLevelChange (fun l => 2 * l) [{| id := 6; level := 2;
                                          weaponHeft := OneHanded;
                                          weaponType := Swing |}]
      {| buildPointsRemaining := 16; buildPointsSpent := 4 |}
      {| id := 6; level := 2; weaponHeft := OneHanded; weaponType := Swing |}
      false = Some d' /\
    buildPointsRemaining (newPoints d') = 20 /\
    buildPointsSpent (newPoints d') = 0.
Proof.
  destruct (raise_then_lower_restores (fun l => 2 * l) [sword] twenty_points
              sword
              {| updatedSkills := [{| id := 6; level := 2;
                                      weaponHeft := OneHanded;
                                      weaponType := Swing |}];
                 newPoints := {| buildPointsRemaining := 16;
                                 buildPointsSpent := 4 |} |})
    as (d' & H1 & H2 & H3 & _);
    [unfold sword; cbn; lia | reflexivity | reflexivity | reflexivity
    | reflexivity |].
  exists d'. auto.
Defined.

Lemma filter_other_ids (skills : list WeaponSkill) (o : WeaponSkill) :
  (forall s, In s skills -> id s <> id o) ->
  filter (fun s => negb (id s =? id o)) skills = skills.
Proof.
  induction skills as [|y l IH]; cbn; [reflexivity|].
  intros H.
  destruct (id y =? id o) eqn:E.
  - apply Z.eqb_eq in E. exfalso. apply (H y); auto.
  - cbn. rewrite IH; auto.
Qed.

(** X24.  Adding a skill always charges the cost of level 1, and deleting
    it refunds the total cost of its level and removes every skill with its
    id.  So, for a list that does not have the id yet: adding then deleting
    restores the list and, the two amounts and the build points at every
    step being safe integers, changes the build points by the difference of
    the two amounts; and adding the same option twice then deleting it
    removes both entries while refunding one. *)
Theorem select_then_delete
    (cost total : Z -> Z) (skills : list WeaponSkill) (base : BuildPoints)
    (o : WeaponSkill) :
  (forall s, In s skills -> id s <> id o) ->
  let once := selectWeaponSkill cost skills base o in
  let twice := selectWeaponSkill cost (updatedSkills once) (newPoints once) o in
  let undone := handleDeleteSkill total (updatedSkills once) (newPoints once) o in
  let cleared := handleDeleteSkill total (updatedSkills twice) (newPoints twice) o in
  isSafeInteger (cost 1) = true ->
  isSafeInteger (total (level o)) = true ->
  safe_points base = true ->
  safe_points (newPoints once) = true ->
  safe_points (newPoints twice) = true ->
  safe_points (newPoints undone) = true ->
  safe_points (newPoints cleared) = true ->
  updatedSkills undone = skills /\
  buildPointsSpent (newPoints undone) =
    buildPointsSpent base + cost 1 - total (level o) /\
  updatedSkills cleared = skills /\
  buildPointsSpent (newPoints cleared) =
    buildPointsSpent base + 2 * cost 1 - total (level o) /\
  budget (newPoints undone) = budget base /\
  budget (newPoints cleared) = budget base.
Proof.
  intros H once twice undone cleared _ _ _ _ _ _ _.
  subst once twice undone cleared.
  cbn -[Z.mul Z.add Z.sub]. unfold budget. cbn -[Z.mul Z.add Z.sub].
  rewrite <- app_assoc, !filter_app, (filter_other_ids skills o H).
  cbn -[Z.mul Z.add Z.sub].
  rewrite Z.eqb_refl. cbn -[Z.mul Z.add Z.sub]. rewrite !app_nil_r.
  repeat split; lia.
Qed.

Lemma select_then_delete_witness :
  updatedSkills
    (handleDeleteSkill (fun l => 2 * l)
       (updatedSkills (selectWeaponSkill (fun l => 2 * l) [] twenty_points sword))
       (newPoints (selectWeaponSkill (fun l => 2 * l) [] twenty_points sword))
       sword) = [] /\
  buildPointsSpent
    (newPoints
       (handleDeleteSkill (fun l => 2 * l)
          (updatedSkills (selectWeaponSkill (fun l => 2 * l) [] twenty_points sword))
          (newPoints (selectWeaponSkill (fun l => 2 * l) [] twenty_points sword))
          sword)) = 0.
Proof.
  destruct (select_then_delete (fun l => 2 * l) (fun l => 2 * l) []
              twenty_points sword) as (H1 & H2 & _);
    try reflexivity.
  - intros s [].
  - split; [exact H1 | exact H2].
Defined.

End WeaponSkillsFacts.
